(** * DBObject: the generic database-object layer of [db_object.py]

    A shallow embedding of the class [DBObject]: schema introspection
    ([setup_table_vars]), the session-scoped query builder ([s_query]), the
    aggregation helpers, and the find / upsert family.

    SQLAlchemy queries are modelled by a small query value ([Query]) that is
    built by the same calls as in the source ([query], [filter], [order_by],
    [group_by], [subquery]) and executed by [all], [scalar] and
    [one_or_none] over the rows a session sees.  Python exceptions are the
    [Err] results of the [result] type. *)

From Stdlib Require Import ZArith QArith Qround Ascii.
From stdpp Require Import gmap strings list fin_maps sorting.

Local Open Scope Z_scope.

(** ** Exceptions and results *)

Inductive exn :=
| KeyError
| AttributeError
| TypeError
| ValueError
| MultipleResultsFound
| InvalidRequestError.

Inductive result (A : Type) :=
| Ok (a : A)
| Err (e : exn).
Arguments Ok {A} a.
Arguments Err {A} e.

#[global] Instance result_ret : MRet result := λ A a, Ok a.

#[global] Instance result_bind : MBind result := λ A B k m,
  match m with
  | Ok a => k a
  | Err e => Err e
  end.

#[global] Instance result_fmap : FMap result := λ A B f m,
  match m with
  | Ok a => Ok (f a)
  | Err e => Err e
  end.

(** ** Values

    The cells of a row and the Python values bound into a query.  [VNone]
    is Python's [None] and SQL's [NULL].  A time of day is kept as its
    seconds since midnight, a date-time (or a date, at its midnight) as its
    seconds since the Unix epoch; [VReal] holds the exact rational behind a
    REAL, always in lowest terms. *)

Inductive value :=
| VNone
| VInt (z : Z)
| VReal (q : Q)
| VText (s : string)
| VTime (secs : Z)
| VDateTime (ts : Z).

#[global] Instance Q_eq_dec : EqDecision Q.
Proof. solve_decision. Defined.

#[global] Instance value_eq_dec : EqDecision value.
Proof. solve_decision. Defined.

Definition is_none (v : value) : bool :=
  match v with VNone => true | _ => false end.

Definition num_of (v : value) : option Q :=
  match v with
  | VInt z => Some (inject_Z z)
  | VReal q => Some q
  | _ => None
  end.

(** Comparison of two cells, as the store orders them: numbers by value,
    texts, times and date-times within their own kind.  [None] for a NULL
    operand (the comparison is unknown) and for operands of different
    kinds, which the repository never compares. *)
Definition compare_values (a b : value) : option comparison :=
  match a, b with
  | VInt x, VInt y => Some (x ?= y)
  | VInt _, VReal _ | VReal _, VInt _ | VReal _, VReal _ =>
      x ← num_of a; y ← num_of b; Some (Qcompare x y)
  | VText s, VText t => Some (String.compare s t)
  | VTime x, VTime y => Some (x ?= y)
  | VDateTime x, VDateTime y => Some (x ?= y)
  | _, _ => None
  end.

(** Python's [value != 0] of [update_from_dict]. *)
Definition py_ne_zero (v : value) : bool :=
  match v with
  | VInt z => negb (z =? 0)
  | VReal q => negb (Qeq_bool q 0)
  | _ => true
  end.

(** ** Calendar arithmetic

    [strftime('%j', ts)] is the ordinal day of the year of a date-time.
    Days are counted from 1970-01-01 in the proleptic Gregorian calendar. *)

Definition leap_days (y : Z) : Z := y / 4 - y / 100 + y / 400.

Definition is_leap (y : Z) : bool :=
  ((y mod 4 =? 0) && negb (y mod 100 =? 0)) || (y mod 400 =? 0).

(** Days from 1970-01-01 to the first of January of year [y]. *)
Definition days_before_year (y : Z) : Z :=
  365 * (y - 1970) + leap_days (y - 1) - leap_days 1969.

(** The civil year of a day number. *)
Definition year_of_days (days : Z) : Z :=
  let z := days + 719468 in
  let era := z / 146097 in
  let doe := z - era * 146097 in
  let yoe := (doe - doe / 1460 + doe / 36524 - doe / 146096) / 365 in
  let doy := doe - (365 * yoe + yoe / 4 - yoe / 100) in
  let y := yoe + era * 400 in
  if doy <? 306 then y else y + 1.

Definition day_of_year (ts : Z) : Z :=
  let days := ts / 86400 in
  days - days_before_year (year_of_days days) + 1.

Definition days_before_month (y m : Z) : Z :=
  let cum := nth (Z.to_nat (m - 1))
               [0; 31; 59; 90; 120; 151; 181; 212; 243; 273; 304; 334] 0 in
  if (2 <? m) && is_leap y then cum + 1 else cum.

(** Python's [datetime.datetime(y, m, d, hh, mm, ss)]. *)
Definition datetime (y m d hh mm ss : Z) : Z :=
  (days_before_year y + days_before_month y m + (d - 1)) * 86400
  + hh * 3600 + mm * 60 + ss.

(** ** Text of numbers and times *)

Definition digit (n : Z) : string :=
  String (Ascii.ascii_of_nat (48 + Z.to_nat (n mod 10))) EmptyString.

Definition pad2 (n : Z) : string := digit (n / 10) +:+ digit n.
Definition pad3 (n : Z) : string := digit (n / 100) +:+ pad2 n.

(** A Python [datetime.time]. *)
Record pytime := { hour : Z; minute : Z; second : Z }.

#[global] Instance pytime_eq_dec : EqDecision pytime.
Proof. solve_decision. Defined.

(** [datetime.time.min] *)
Definition time_min : pytime := {| hour := 0; minute := 0; second := 0 |}.

Definition digit_val (c : Ascii.ascii) : option Z :=
  let n := Z.of_nat (Ascii.nat_of_ascii c) in
  if (48 <=? n) && (n <=? 57) then Some (n - 48) else None.

(** One field of ['%H:%M:%S']: one or two decimal digits. *)
Definition parse_field (s : string) : option Z :=
  match s with
  | String a EmptyString => digit_val a
  | String a (String b EmptyString) =>
      x ← digit_val a; y ← digit_val b; Some (10 * x + y)
  | _ => None
  end.

Fixpoint split_colon (s : string) (cur : string) : list string :=
  match s with
  | EmptyString => [cur]
  | String c rest =>
      if Ascii.eqb c ":"%char then cur :: split_colon rest EmptyString
      else split_colon rest (cur +:+ String c EmptyString)
  end.

(** [datetime.datetime.strptime(text, '%H:%M:%S').time()] *)
Definition strptime_HMS (text : string) : result pytime :=
  match split_colon text EmptyString with
  | [h; m; s] =>
      match parse_field h, parse_field m, parse_field s with
      | Some h, Some m, Some s =>
          if (h <? 24) && (m <? 60) && (s <? 60)
          then Ok {| hour := h; minute := m; second := s |}
          else Err ValueError
      | _, _, _ => Err ValueError
      end
  | _ => Err ValueError
  end.

(** ** SQL functions

    The store's functions that the queries of [DBObject] call, on the
    values above. *)

Inductive fmt :=
| fmt_s    (* '%s': seconds since the Unix epoch *)
| fmt_j.   (* '%j': day of the year, 001-366 *)

(** Seconds from the Unix epoch to 2000-01-01, the date the store gives to
    a time of day that comes without a date. *)
Definition epoch_2000 : Z := 946684800.

Definition two_digits (s : string) : option Z :=
  match s with
  | String _ (String _ EmptyString) => parse_field s
  | _ => None
  end.

(** A time of day written as the store reads it, ['HH:MM'] or
    ['HH:MM:SS'], in seconds since midnight. *)
Definition sql_time_text (s : string) : option Z :=
  match split_colon s EmptyString with
  | [h; m] =>
      h ← two_digits h; m ← two_digits m;
      if (h <? 24) && (m <? 60) then Some (h * 3600 + m * 60) else None
  | [h; m; s] =>
      h ← two_digits h; m ← two_digits m; s ← two_digits s;
      if (h <? 24) && (m <? 60) && (s <? 60)
      then Some (h * 3600 + m * 60 + s) else None
  | _ => None
  end.

(** [strftime(fmt, v)].  The numeric text of ['%s'] is kept as the integer
    that arithmetic reads it as. *)
Definition strftime (f : fmt) (v : value) : value :=
  match f, v with
  | fmt_s, VTime t => VInt (epoch_2000 + t)
  | fmt_s, VText s =>
      match sql_time_text s with
      | Some t => VInt (epoch_2000 + t)
      | None => VNone
      end
  | fmt_s, VDateTime ts => VInt ts
  | fmt_j, VTime _ => VText (pad3 1)
  | fmt_j, VDateTime ts => VText (pad3 (day_of_year ts))
  | _, _ => VNone
  end.

Definition sql_sub (a b : value) : value :=
  match a, b with
  | VInt x, VInt y => VInt (x - y)
  | VNone, _ | _, VNone => VNone
  | _, _ =>
      match num_of a, num_of b with
      | Some x, Some y => VReal (Qred (x - y))
      | _, _ => VNone
      end
  end.

Definition hms_text (secs : Z) : string :=
  let s := secs mod 86400 in
  pad2 (s / 3600) +:+ ":" +:+ pad2 (s mod 3600 / 60) +:+ ":" +:+ pad2 (s mod 60).

(** [time(v, 'unixepoch')]: the time of day, as text, of [v] seconds since
    the epoch.  A fractional number of seconds is rounded to the millisecond
    and the text keeps the whole seconds. *)
Definition time_unixepoch (v : value) : value :=
  match v with
  | VInt n => VText (hms_text n)
  | VReal q => VText (hms_text (Qfloor (q * inject_Z 1000 + (1 # 2))%Q / 1000))
  | _ => VNone
  end.

(** The functions reached through SQLAlchemy's [func]. *)
Inductive sqlfunc := f_sum | f_avg | f_min | f_max | f_count | f_distinct.

#[global] Instance sqlfunc_eq_dec : EqDecision sqlfunc.
Proof. solve_decision. Defined.

Definition int_of (v : value) : option Z :=
  match v with VInt z => Some z | _ => None end.

Definition Zsum (zs : list Z) : Z := foldr Z.add 0 zs.
Definition Qsum (qs : list Q) : Q := foldr Qplus (0 # 1)%Q qs.

(** The smallest ([want = Lt]) or largest ([want = Gt]) of [x :: xs]. *)
Definition extreme (want : comparison) (x : value) (xs : list value) : value :=
  foldl (λ acc v,
           match compare_values v acc with
           | Some c => if decide (c = want) then v else acc
           | None => acc
           end) x xs.

(** An aggregate function over the values of a group.  NULLs do not take
    part; with no value left the result is NULL, except for [count].  [sum]
    and [avg] are defined on numbers; [sum] of integers is an integer,
    [avg] is always a real.  [distinct] is not an aggregate: among
    aggregates it stands for one value of the group. *)
Definition aggregate (f : sqlfunc) (vs : list value) : value :=
  let xs := filter (λ v, v ≠ VNone) vs in
  match f, xs with
  | f_count, _ => VInt (Z.of_nat (length xs))
  | _, [] => VNone
  | f_sum, _ =>
      match mapM int_of xs, mapM num_of xs with
      | Some zs, _ => VInt (Zsum zs)
      | None, Some qs => VReal (Qred (Qsum qs))
      | None, None => VNone
      end
  | f_avg, _ =>
      match mapM num_of xs with
      | Some qs => VReal (Qred (Qsum qs / inject_Z (Z.of_nat (length qs))))
      | None => VNone
      end
  | f_min, x :: xs' => extreme Lt x xs'
  | f_max, x :: xs' => extreme Gt x xs'
  | f_distinct, x :: _ => x
  end.

(** ** Rows, expressions and criteria *)

(** A record instance (one row) and a Python [dict] of column values are
    both finite maps from names to values. *)
Abbreviation instance := (gmap string value).
Abbreviation dict := (gmap string value).

(** An attribute that was never set reads as [None]. *)
Definition getattr (r : instance) (c : string) : value :=
  default VNone (r !! c).

Inductive expr :=
| Col (name : string)
| Lit (v : value)
| Label (e : expr) (name : string)
| Strftime (f : fmt) (e : expr)
| Time_unixepoch (e : expr)
| Sub (a b : expr)
| Func (f : sqlfunc) (e : expr).

Inductive cmp_op := OpEq | OpNe | OpGe | OpLt | OpGt.

Inductive crit :=
| Cmp (op : cmp_op) (e : expr) (v : value)
| And_ (a b : crit)
| Const (b : bool).

(** An expression on one row.  [distinct(e)] is [e] on each row; the query
    drops the repeated results. *)
Fixpoint eval (e : expr) (r : instance) : value :=
  match e with
  | Col c => getattr r c
  | Lit v => v
  | Label e _ => eval e r
  | Strftime f e => strftime f (eval e r)
  | Time_unixepoch e => time_unixepoch (eval e r)
  | Sub a b => sql_sub (eval a r) (eval b r)
  | Func _ e => eval e r
  end.

(** An expression on a group of rows: aggregate functions range over the
    group, a bare column is read from its last row. *)
Fixpoint eval_group (e : expr) (g : list instance) : value :=
  match e with
  | Col c => from_option (λ r, getattr r c) VNone (last g)
  | Lit v => v
  | Label e _ => eval_group e g
  | Strftime f e => strftime f (eval_group e g)
  | Time_unixepoch e => time_unixepoch (eval_group e g)
  | Sub a b => sql_sub (eval_group a g) (eval_group b g)
  | Func f e => aggregate f (eval e <$> g)
  end.

Fixpoint is_aggregate (e : expr) : bool :=
  match e with
  | Col _ | Lit _ => false
  | Label e _ | Strftime _ e | Time_unixepoch e => is_aggregate e
  | Sub a b => is_aggregate a || is_aggregate b
  | Func f e => bool_decide (f ≠ f_distinct) || is_aggregate e
  end.

Fixpoint is_distinct (e : expr) : bool :=
  match e with
  | Func f_distinct _ => true
  | Label e _ => is_distinct e
  | _ => false
  end.

Definition test (op : cmp_op) (c : comparison) : bool :=
  match op, c with
  | OpEq, Eq => true
  | OpNe, (Lt | Gt) => true
  | OpGe, (Eq | Gt) => true
  | OpLt, Lt => true
  | OpGt, Gt => true
  | _, _ => false
  end.

(** Whether a criterion is true on a row; a row stays in a result only
    then.  A comparison with a NULL operand is unknown, hence not true;
    [== None] and [!= None] are rendered as [IS NULL] and [IS NOT NULL]. *)
Fixpoint holds (c : crit) (r : instance) : bool :=
  match c with
  | Cmp OpEq e VNone => is_none (eval e r)
  | Cmp OpNe e VNone => negb (is_none (eval e r))
  | Cmp op e v =>
      match compare_values (eval e r) v with
      | Some c => test op c
      | None => false
      end
  | And_ a b => holds a r && holds b r
  | Const b => b
  end.

(** ** Sessions and queries *)

(** What a session holds: the rows of the table as its queries see them,
    and the instances handed to [session.add] and not yet stored. *)
Record Session := { rows : list instance; added : list instance }.

Definition session_add (s : Session) (r : instance) : Session :=
  {| rows := rows s; added := added s ++ [r] |}.

Inductive selectable :=
| Entity                (* the mapped class itself: rows come back whole *)
| Select (e : expr).    (* one column or expression *)

Record Query := {
  q_select : selectable;
  q_from : list instance;
  q_where : list crit;
  q_order_by : option expr;
  q_group_by : option expr
}.

(** [session.query(selectable)] *)
Definition session_query (s : Session) (sel : selectable) : Query :=
  {| q_select := sel; q_from := rows s; q_where := [];
     q_order_by := None; q_group_by := None |}.

(** [query.filter(criterion)]: a new query; the receiver is unchanged. *)
Definition query_filter (q : Query) (c : crit) : Query :=
  {| q_select := q_select q; q_from := q_from q; q_where := q_where q ++ [c];
     q_order_by := q_order_by q; q_group_by := q_group_by q |}.

Definition query_order_by (q : Query) (e : expr) : Query :=
  {| q_select := q_select q; q_from := q_from q; q_where := q_where q;
     q_order_by := Some e; q_group_by := q_group_by q |}.

Definition query_group_by (q : Query) (e : expr) : Query :=
  {| q_select := q_select q; q_from := q_from q; q_where := q_where q;
     q_order_by := q_order_by q; q_group_by := Some e |}.

(** A result row: a whole instance, or the value of the selected
    expression. *)
Inductive row :=
| RowEntity (r : instance)
| RowValue (v : value).

Definition passes (cs : list crit) (r : instance) : bool :=
  forallb (λ c, holds c r) cs.

Definition order_le (e : expr) (a b : instance) : Prop :=
  compare_values (eval e a) (eval e b) ≠ Some Gt.

#[global] Instance order_le_dec e : RelDecision (order_le e).
Proof. intros a b. unfold order_le. apply _. Defined.

(** The rows a query ranges over, after its criteria and its ordering. *)
Definition query_rows (q : Query) : list instance :=
  let kept := filter (λ r, passes (q_where q) r = true) (q_from q) in
  match q_order_by q with
  | Some e => merge_sort (order_le e) kept
  | None => kept
  end.

(** The groups of [GROUP BY]: one per distinct key, in order of first
    appearance. *)
Definition group_rows (key : expr) (rs : list instance) : list (list instance) :=
  (λ k, filter (λ r, eval key r = k) rs) <$> remove_dups (eval key <$> rs).

(** [query.all()] *)
Definition query_all (q : Query) : list row :=
  let rs := query_rows q in
  match q_select q with
  | Entity => RowEntity <$> rs
  | Select e =>
      match q_group_by q with
      | Some key => (λ g, RowValue (eval_group e g)) <$> group_rows key rs
      | None =>
          if is_aggregate e then [RowValue (eval_group e rs)]
          else if is_distinct e then RowValue <$> remove_dups (eval e <$> rs)
          else RowValue <$> (eval e <$> rs)
      end
  end.

(** [query.one_or_none()] *)
Definition query_one_or_none (q : Query) : result (option row) :=
  match query_all q with
  | [] => Ok None
  | [r] => Ok (Some r)
  | _ => Err MultipleResultsFound
  end.

(** [query.scalar()]: the first column of the only row, [None] when there
    is no row. *)
Definition query_scalar (q : Query) : result row :=
  r ← query_one_or_none q; Ok (default (RowValue VNone) r).

Definition label_of (sel : selectable) : option string :=
  match sel with
  | Select (Label _ name) => Some name
  | _ => None
  end.

(** [query.subquery()]: the rows of the query as a table of their own,
    with the label of the selected expression as its only column. *)
Definition query_subquery (q : Query) : list instance :=
  omap (λ r, match r, label_of (q_select q) with
             | RowValue v, Some name => Some {[ name := v ]}
             | RowEntity i, _ => Some i
             | _, _ => None
             end) (query_all q).

(** [session.query(selectable)] where the selectable is a column of a
    subquery: the query ranges over the rows of the subquery. *)
Definition session_query_over (s : Session) (sub : list instance)
    (sel : selectable) : Query :=
  {| q_select := sel; q_from := sub; q_where := [];
     q_order_by := None; q_group_by := None |}.

(** Modelled from the spec: [db.managed_session()] of the backing store,
    which is not part of [db_object.py].  It yields a transactional session
    over the stored rows, commits on normal exit (the added instances
    become rows) and rolls back on an exception (the store is unchanged). *)
Definition managed_session {A} (db : list instance)
    (body : Session → result (A * Session)) : result (A * list instance) :=
  match body {| rows := db; added := [] |} with
  | Ok (a, s) => Ok (a, rows s ++ added s)
  | Err e => Err e
  end.

(** ** The class [DBObject] *)

Inductive col_type :=
| Integer | Float | String_ | Boolean | Enum | DateTime | Date | Time.

#[global] Instance col_type_eq_dec : EqDecision col_type.
Proof. solve_decision. Defined.

(** [isinstance(t, DateTime) or isinstance(t, Date) or isinstance(t, Time)] *)
Definition is_time_type (t : col_type) : bool :=
  match t with
  | DateTime | Date | Time => true
  | _ => false
  end.

Record Column := { name : string; type : col_type; primary_key : bool }.

(** A subclass of [DBObject]: the columns of its table, in declaration
    order, and the class attributes [get_col_name], [time_col_name] and
    [match_col_names]. *)
Record DBObject := {
  columns : list Column;
  get_col_name : option string;
  time_col_name : option string;
  match_col_names : option (list string)
}.

Definition set_get_col_name (cls : DBObject) (n : string) : DBObject :=
  {| columns := columns cls; get_col_name := Some n;
     time_col_name := time_col_name cls;
     match_col_names := match_col_names cls |}.

Definition set_time_col_name (cls : DBObject) (n : string) : DBObject :=
  {| columns := columns cls; get_col_name := get_col_name cls;
     time_col_name := Some n;
     match_col_names := match_col_names cls |}.

(** The body of the first loop of [setup_table_vars], for one column. *)
Definition setup_primary_key (cls : DBObject) (col : Column) : DBObject :=
  if primary_key col then
    let cls := set_get_col_name cls (name col) in
    if is_time_type (type col) then set_time_col_name cls (name col) else cls
  else cls.

Definition setup_table_vars (cls : DBObject) : DBObject :=
  let cls := foldl setup_primary_key cls (columns cls) in
  match time_col_name cls with
  | None =>
      match List.find (λ col, is_time_type (type col)) (columns cls) with
      | Some col => set_time_col_name cls (name col)
      | None => cls
      end
  | Some _ => cls
  end.

(** [setup]: the table variables are discovered only while no temporal
    column name is known. *)
Definition setup (cls : DBObject) : DBObject :=
  match time_col_name cls with
  | None => setup_table_vars cls
  | Some _ => cls
  end.

(** [cls.time_col], the synonym of the temporal column; the attribute does
    not exist when no temporal column is known. *)
Definition time_col (cls : DBObject) : result expr :=
  match time_col_name cls with
  | Some n => Ok (Col n)
  | None => Err AttributeError
  end.

Definition get_col_names (cls : DBObject) : list string :=
  name <$> columns cls.

(** [get_col_by_name]: [None] when no column has the name. *)
Definition get_col_by_name (cls : DBObject) (n : string) : option expr :=
  (λ col, Col (name col)) <$> List.find (λ col, bool_decide (name col = n)) (columns cls).

(** The name behind [cls.time_col] on an instance. *)
Definition time_col_attr (n : option string) : result string :=
  match n with
  | Some n => Ok n
  | None => Err AttributeError
  end.

(** [values_dict[key]] *)
Definition dict_get (d : dict) (key : option string) : result value :=
  match key with
  | Some k => match d !! k with Some v => Ok v | None => Err KeyError end
  | None => Err KeyError
  end.

(** *** Temporal predicates (the [expression] side of the hybrid methods) *)

Definition during (cls : DBObject) (start_ts end_ts : value) : result crit :=
  tc ← time_col cls;
  Ok (And_ (Cmp OpGe tc start_ts) (Cmp OpLt tc end_ts)).

Definition after (cls : DBObject) (start_ts : value) : result crit :=
  tc ← time_col cls; Ok (Cmp OpGe tc start_ts).

Definition before (cls : DBObject) (end_ts : value) : result crit :=
  tc ← time_col cls; Ok (Cmp OpLt tc end_ts).

(** The instance side of [during]: Python's [and] of two comparisons on
    the instance's own temporal value; ordering a value against [None], or
    against a value of another kind, raises [TypeError]. *)
Definition py_compare (a b : value) : result comparison :=
  match compare_values a b with
  | Some c => Ok c
  | None => Err TypeError
  end.

Definition during_instance (cls : DBObject) (self : instance)
    (start_ts end_ts : value) : result bool :=
  tc ← time_col_attr (time_col_name cls);
  c ← py_compare (getattr self tc) start_ts;
  if test OpGe c then
    c ← py_compare (getattr self tc) end_ts; Ok (test OpLt c)
  else Ok false.

(** *** Finding and upserting *)

(** [column == value] where the column came from [get_col_by_name]: with
    no such column the left operand is [None] and the comparison is a plain
    Python boolean. *)
Definition py_eq (c : option expr) (v : value) : crit :=
  match c with
  | Some e => Cmp OpEq e v
  | None => Const (is_none v)
  end.

Definition row_entity (r : row) : option instance :=
  match r with
  | RowEntity i => Some i
  | RowValue _ => None
  end.

Definition s_find_one (cls : DBObject) (session : Session) (values_dict : dict)
    : result (option instance) :=
  let query := session_query session Entity in
  query ←
    match match_col_names cls with
    | Some names =>
        Ok (foldl (λ query match_col_name,
                     match values_dict !! match_col_name with
                     | Some v =>
                         query_filter query (py_eq (get_col_by_name cls match_col_name) v)
                     | None =>
                         query_filter query (py_eq (get_col_by_name cls match_col_name) VNone)
                     end) query names)
    | None =>
        tc ← time_col cls;
        v ← dict_get values_dict (time_col_name cls);
        Ok (query_filter query (Cmp OpEq tc v))
    end;
  tc ← time_col cls;
  v ← dict_get values_dict (time_col_name cls);
  let query := query_filter query (Cmp OpEq tc v) in
  r ← query_one_or_none query;
  Ok (r ≫= row_entity).

(** The constructor call of [cls] with [values_dict] as its keyword
    arguments: the declarative constructor sets one attribute
    per key and refuses a key that names no attribute of the class; the
    attributes of a class are its columns here. *)
Definition construct (cls : DBObject) (values_dict : dict) : result instance :=
  if bool_decide (map_Forall (λ k _, k ∈ get_col_names cls) values_dict)
  then Ok values_dict
  else Err TypeError.

Definition s_find_or_create (cls : DBObject) (session : Session)
    (values_dict : dict) : result Session :=
  found ← s_find_one cls session values_dict;
  match found with
  | None => new ← construct cls values_dict; Ok (session_add session new)
  | Some _ => Ok session
  end.

Definition find_or_create (cls : DBObject) (db : list instance)
    (values_dict : dict) : result (unit * list instance) :=
  managed_session db (λ session,
    session ← s_find_or_create cls session values_dict; Ok ((), session)).

(** [session.query(cls).get(instance_id)]: the row with this primary key,
    with its position among the rows; the instance it returns is the
    session's own object for that row. *)
Definition s_get (cls : DBObject) (session : Session) (instance_id : value)
    : result (option (nat * instance)) :=
  match filter (λ col, primary_key col = true) (columns cls) with
  | [pk] =>
      if is_none instance_id then Ok None
      else Ok (list_find (λ r, holds (Cmp OpEq (Col (name pk)) instance_id) r = true)
                 (rows session))
  | _ => Err InvalidRequestError
  end.

Definition s_get_from_dict (cls : DBObject) (session : Session)
    (values_dict : dict) : result (option (nat * instance)) :=
  instance_id ← dict_get values_dict (get_col_name cls);
  s_get cls session instance_id.

Definition update_from_dict (cls : DBObject) (self : instance)
    (values_dict : dict) (ignore_none ignore_zero : bool) : instance :=
  let col_names := get_col_names cls in
  map_fold (λ key value self,
              if (negb ignore_none || negb (is_none value))
                 && (negb ignore_zero || py_ne_zero value)
                 && bool_decide (key ∈ col_names)
              then <[key := value]> self
              else self) self values_dict.

(** An argument with a default is an [option]: [None] when the caller
    leaves it out. *)
Definition s_insert_or_update (cls : DBObject) (session : Session)
    (values_dict : dict) (ignore_none ignore_zero : option bool)
    : result Session :=
  let ignore_none := default true ignore_none in
  let ignore_zero := default false ignore_zero in
  found ← s_get_from_dict cls session values_dict;
  match found with
  | Some (i, self) =>
      Ok {| rows := <[i := update_from_dict cls self values_dict ignore_none ignore_zero]>
                      (rows session);
            added := added session |}
  | None => new ← construct cls values_dict; Ok (session_add session new)
  end.

Definition insert_or_update (cls : DBObject) (db : list instance)
    (values_dict : dict) (ignore_none : option bool)
    : result (unit * list instance) :=
  let ignore_none := default false ignore_none in
  managed_session db (λ session,
    session ← s_insert_or_update cls session values_dict (Some ignore_none) None;
    Ok ((), session)).

(** *** The query builder *)

Definition s_query (cls : DBObject) (session : Session) (sel : selectable)
    (order_by : option expr) (start_ts end_ts : value)
    (ignore_le_zero_col : option expr) : result Query :=
  let query := session_query session sel in
  let query :=
    match order_by with
    | Some o => query_order_by query o
    | None => query
    end in
  query ←
    (if negb (is_none start_ts) && negb (is_none end_ts) then
       c ← during cls start_ts end_ts; Ok (query_filter query c)
     else if negb (is_none start_ts) then
       c ← after cls start_ts; Ok (query_filter query c)
     else if negb (is_none end_ts) then
       c ← before cls end_ts; Ok (query_filter query c)
     else Ok query);
  Ok match ignore_le_zero_col with
     | Some c => query_filter query (Cmp OpGt c (VInt 0))
     | None => query
     end.

(** *** Scalar aggregates *)

(** What a caller hands over as [ignore_le_zero]: a boolean, a column, or
    [None]; the callee only tests its truth, and a column attribute of a
    mapped class is a true object. *)
Inductive pyarg :=
| PyBool (b : bool)
| PyExpr (e : expr)
| PyNone.

Definition truthy (a : pyarg) : bool :=
  match a with
  | PyBool b => b
  | PyExpr _ => true
  | PyNone => false
  end.

Definition s_get_col_func_query (cls : DBObject) (session : Session)
    (col : expr) (func : sqlfunc) (start_ts end_ts : value)
    (ignore_le_zero : pyarg) : result Query :=
  s_query cls session (Select (Func func col)) None start_ts end_ts
    (if truthy ignore_le_zero then Some col else None).



Definition s_get_col_avg (cls : DBObject) (session : Session) (col : expr)
    (start_ts end_ts : value) (ignore_le_zero : bool) : result row :=
  q ← s_get_col_func_query cls session col f_avg start_ts end_ts
         (if ignore_le_zero then PyExpr col else PyNone);
  query_scalar q.

Definition s_get_col_min (cls : DBObject) (session : Session) (col : expr)
    (start_ts end_ts : value) (ignore_le_zero : bool) : result row :=
  q ← s_get_col_func_query cls session col f_min start_ts end_ts
         (if ignore_le_zero then PyExpr col else PyNone);
  query_scalar q.

Definition s_get_col_max (cls : DBObject) (session : Session) (col : expr)
    (start_ts end_ts : value) (ignore_le_zero : bool) : result row :=
  q ← s_get_col_func_query cls session col f_max start_ts end_ts
         (PyBool ignore_le_zero);
  query_scalar q.

Definition get_col_max (cls : DBObject) (db : list instance) (col : expr)
    (start_ts end_ts : value) (ignore_le_zero : bool) : result row :=
  fst <$> managed_session db (λ session,
    q ← s_get_col_func_query cls session col f_max start_ts end_ts
           (PyBool ignore_le_zero);
    r ← query_scalar q; Ok (r, session)).

Definition s_get_col_sum (cls : DBObject) (session : Session) (col : expr)
    (start_ts end_ts : value) : result row :=
  q ← s_get_col_func_query cls session col f_sum start_ts end_ts (PyBool false);
  query_scalar q.

Definition get_col_avg (cls : DBObject) (db : list instance) (col : expr)
    (start_ts end_ts : value) (ignore_le_zero : bool) : result row :=
  fst <$> managed_session db (λ session,
    r ← s_get_col_avg cls session col start_ts end_ts ignore_le_zero;
    Ok (r, session)).

Definition get_col_min (cls : DBObject) (db : list instance) (col : expr)
    (start_ts end_ts : value) (ignore_le_zero : bool) : result row :=
  fst <$> managed_session db (λ session,
    q ← s_get_col_func_query cls session col f_min start_ts end_ts
           (if ignore_le_zero then PyExpr col else PyNone);
    r ← query_scalar q; Ok (r, session)).

Definition get_col_sum (cls : DBObject) (db : list instance) (col : expr)
    (start_ts end_ts : value) : result row :=
  fst <$> managed_session db (λ session,
    r ← s_get_col_sum cls session col start_ts end_ts; Ok (r, session)).

(** *** Aggregates of a time-of-day column *)

Definition _secs_from_time (col : expr) : expr :=
  Sub (Strftime fmt_s col) (Strftime fmt_s (Lit (VText "00:00"))).

Definition time_from_secs (value : expr) : expr := Time_unixepoch value.

Definition __get_time_col_func (cls : DBObject) (session : Session)
    (col : expr) (stat_func : sqlfunc) (start_ts end_ts : value)
    : result pytime :=
  q ← s_query cls session
        (Select (time_from_secs (Func stat_func (_secs_from_time col))))
        None start_ts end_ts (Some (_secs_from_time col));
  result ← query_scalar q;
  match result with
  | RowValue VNone => Ok time_min
  | RowValue (VText text) => strptime_HMS text
  | _ => Err TypeError
  end.

Definition get_time_col_func (cls : DBObject) (db : list instance)
    (col : expr) (stat_func : sqlfunc) (start_ts end_ts : value)
    : result pytime :=
  fst <$> managed_session db (λ session,
    t ← __get_time_col_func cls session col stat_func start_ts end_ts;
    Ok (t, session)).

Definition s_get_time_col_avg cls session col start_ts end_ts :=
  __get_time_col_func cls session col f_avg start_ts end_ts.
Definition get_time_col_avg cls db col start_ts end_ts :=
  get_time_col_func cls db col f_avg start_ts end_ts.
Definition s_get_time_col_min cls session col start_ts end_ts :=
  __get_time_col_func cls session col f_min start_ts end_ts.
Definition get_time_col_min cls db col start_ts end_ts :=
  get_time_col_func cls db col f_min start_ts end_ts.
Definition s_get_time_col_max cls session col start_ts end_ts :=
  __get_time_col_func cls session col f_max start_ts end_ts.
Definition get_time_col_max cls db col start_ts end_ts :=
  get_time_col_func cls db col f_max start_ts end_ts.
Definition s_get_time_col_sum cls session col start_ts end_ts :=
  __get_time_col_func cls session col f_sum start_ts end_ts.
Definition get_time_col_sum cls db col start_ts end_ts :=
  get_time_col_func cls db col f_sum start_ts end_ts.

(** *** Aggregates of the daily maxima *)

Definition s_get_col_func_of_max_per_day_for_value (cls : DBObject)
    (session : Session) (col : expr) (stat_func : sqlfunc)
    (start_ts end_ts : value) (match_col : option expr) (match_value : value)
    : result row :=
  d ← during cls start_ts end_ts;
  tc ← time_col cls;
  let max_daily_query :=
    query_group_by
      (query_filter (session_query session (Select (Label (Func f_max col) "maxes"))) d)
      (Strftime fmt_j tc) in
  (* the statement under the [if] calls [filter] and drops the query it
     returns: [max_daily_query] stays as it was *)
  let _dropped :=
    match match_col with
    | Some mc =>
        if negb (is_none match_value)
        then Some (query_filter max_daily_query (Cmp OpEq mc match_value))
        else None
    | None => None
    end in
  query_scalar
    (session_query_over session (query_subquery max_daily_query)
       (Select (Func stat_func (Col "maxes")))).

Definition get_col_func_of_max_per_day_for_value (cls : DBObject)
    (db : list instance) (col : expr) (stat_func : sqlfunc)
    (start_ts end_ts : value) (match_col : option expr) (match_value : value)
    : result row :=
  fst <$> managed_session db (λ session,
    r ← s_get_col_func_of_max_per_day_for_value cls session col stat_func
           start_ts end_ts match_col match_value;
    Ok (r, session)).

Definition get_col_sum_of_max_per_day_for_value cls db col
    (match_col : expr) match_value start_ts end_ts :=
  get_col_func_of_max_per_day_for_value cls db col f_sum start_ts end_ts
    (Some match_col) match_value.

Definition s_get_col_avg_of_max_per_day_for_value cls session col
    (match_col : expr) match_value start_ts end_ts :=
  s_get_col_func_of_max_per_day_for_value cls session col f_avg start_ts end_ts
    (Some match_col) match_value.

Definition get_col_avg_of_max_per_day_for_value cls db col
    (match_col : expr) match_value start_ts end_ts :=
  get_col_func_of_max_per_day_for_value cls db col f_avg start_ts end_ts
    (Some match_col) match_value.

(** The two functions below receive [stat_func] and pass [func.sum] on. *)
Definition s_get_col_func_of_max_per_day (cls : DBObject) (session : Session)
    (col : expr) (stat_func : sqlfunc) (start_ts end_ts : value) : result row :=
  s_get_col_func_of_max_per_day_for_value cls session col f_sum start_ts end_ts
    None VNone.

Definition get_col_func_of_max_per_day (cls : DBObject) (db : list instance)
    (col : expr) (stat_func : sqlfunc) (start_ts end_ts : value) : result row :=
  get_col_func_of_max_per_day_for_value cls db col f_sum start_ts end_ts
    None VNone.

Definition s_get_col_sum_of_max_per_day cls session col start_ts end_ts :=
  s_get_col_func_of_max_per_day cls session col f_sum start_ts end_ts.
Definition get_col_sum_of_max_per_day cls db col start_ts end_ts :=
  get_col_func_of_max_per_day cls db col f_sum start_ts end_ts.
Definition get_col_avg_of_max_per_day cls db col start_ts end_ts :=
  get_col_func_of_max_per_day cls db col f_avg start_ts end_ts.
Definition get_col_min_of_max_per_day cls db col start_ts end_ts :=
  get_col_func_of_max_per_day cls db col f_min start_ts end_ts.
Definition get_col_max_of_max_per_day cls db col start_ts end_ts :=
  get_col_func_of_max_per_day cls db col f_max start_ts end_ts.

(** ** Further operations of [DBObject] *)

(** *** The instance side of [after] and [before] *)

(** [after] on an instance answers nothing ([None]) when no start is
    given. *)
Definition after_instance (cls : DBObject) (self : instance)
    (start_ts : value) : result (option bool) :=
  if is_none start_ts then Ok None
  else
    tc ← time_col_attr (time_col_name cls);
    c ← py_compare (getattr self tc) start_ts;
    Ok (Some (test OpGe c)).

Definition before_instance (cls : DBObject) (self : instance)
    (end_ts : value) : result bool :=
  tc ← time_col_attr (time_col_name cls);
  c ← py_compare (getattr self tc) end_ts;
  Ok (test OpLt c).

(** *** Matching on given columns *)

(** [match_dict] maps columns to values; its items are taken in order. *)
Definition s_find_match (session : Session) (match_dict : list (expr * value))
    : result (option instance) :=
  let query :=
    foldl (λ query item, query_filter query (Cmp OpEq item.1 item.2))
      (session_query session Entity) match_dict in
  r ← query_one_or_none query;
  Ok (r ≫= row_entity).

(** [s_find_match(...).id]: [None] has no attribute [id], and neither has
    an instance of a class without that column. *)
Definition s_find_id (cls : DBObject) (session : Session)
    (match_dict : list (expr * value)) : result value :=
  found ← s_find_match session match_dict;
  match found with
  | Some r =>
      if bool_decide ("id" ∈ get_col_names cls) then Ok (getattr r "id")
      else Err AttributeError
  | None => Err AttributeError
  end.

Definition find_id (cls : DBObject) (db : list instance)
    (values_dict : list (expr * value)) : result value :=
  fst <$> managed_session db (λ session,
    i ← s_find_id cls session values_dict; Ok (i, session)).

(** *** Creating or updating *)

(** The instance that a query returned is the session's own object for its
    row, so a change of the instance is a change of that row.
    [one_or_none] returned it as the only match of its criteria, hence no
    other row equals it. *)
Definition replace_instance (rs : list instance) (self new : instance)
    : list instance :=
  match list_find (λ r, r = self) rs with
  | Some (i, _) => <[i := new]> rs
  | None => rs
  end.

Definition s_create_or_update (cls : DBObject) (session : Session)
    (values_dict : dict) (ignore_none ignore_zero : option bool)
    : result Session :=
  let ignore_none := default false ignore_none in
  let ignore_zero := default false ignore_zero in
  found ← s_find_one cls session values_dict;
  match found with
  | Some self =>
      Ok {| rows := replace_instance (rows session) self
                      (update_from_dict cls self values_dict ignore_none ignore_zero);
            added := added session |}
  | None => new ← construct cls values_dict; Ok (session_add session new)
  end.

Definition create_or_update (cls : DBObject) (db : list instance)
    (values_dict : dict) (ignore_none : option bool)
    : result (unit * list instance) :=
  let ignore_none := default false ignore_none in
  managed_session db (λ session,
    session ← s_create_or_update cls session values_dict (Some ignore_none) None;
    Ok ((), session)).

(** *** Records of a period *)


(** [datetime.datetime.combine(day_date, datetime.time.min)] *)
Definition combine_min (day_date : Z) : Z := day_date * 86400.

(** [datetime.timedelta(days)] in seconds. *)
Definition timedelta (days : Z) : Z := days * 86400.

Definition s_get_for_period (cls : DBObject) (session : Session)
    (start_ts end_ts : value) (sel : option selectable)
    (not_none_col : option expr) : result (list row) :=
  let sel := default Entity sel in
  tc ← time_col cls;
  query ← s_query cls session sel (Some tc) start_ts end_ts None;
  let query :=
    match not_none_col with
    | Some c => query_filter query (Cmp OpNe c VNone)
    | None => query
    end in
  Ok (query_all query).

Definition get_for_period (cls : DBObject) (db : list instance)
    (start_ts end_ts : value) (sel : option selectable)
    (not_none_col : option expr) : result (list row) :=
  fst <$> managed_session db (λ session,
    rs ← s_get_for_period cls session start_ts end_ts sel not_none_col;
    Ok (rs, session)).

Definition get_for_day (cls : DBObject) (db : list instance)
    (sel : option selectable) (day_date : Z) (not_none_col : option expr)
    : result (list row) :=
  let start_ts := combine_min day_date in
  let end_ts := start_ts + timedelta 1 in
  get_for_period cls db (VDateTime start_ts) (VDateTime end_ts) sel not_none_col.

(** *** Values of a column *)

(** A Python [bool] where the query builder expects a column: [False] is
    the number [0] and [True] the number [1], so [flag > 0] is the flag
    itself, on every row. *)
Definition py_bool (b : bool) : expr := Lit (VInt (if b then 1 else 0)).

(** [get_col_values] hands its flag [ignore_le_zero] to [s_query] in the
    place of [ignore_le_zero_col]. *)
Definition get_col_values (cls : DBObject) (db : list instance)
    (get_col match_col : expr) (match_value : value) (start_ts end_ts : value)
    (ignore_le_zero : option bool) : result (list row) :=
  let ignore_le_zero := default false ignore_le_zero in
  fst <$> managed_session db (λ session,
    tc ← time_col cls;
    q ← s_query cls session (Select get_col) (Some tc) start_ts end_ts
          (Some (py_bool ignore_le_zero));
    Ok (query_all (query_filter q (Cmp OpEq match_col match_value)), session)).

(** *** Aggregates of the rows with a given value *)

Definition _get_col_func_for_value (cls : DBObject) (session : Session)
    (col : expr) (stat_func : sqlfunc) (match_col : expr) (match_value : value)
    (start_ts end_ts : value) (ignore_le_zero : bool) : result row :=
  q ← s_query cls session (Select (Func stat_func col)) None start_ts end_ts
        (if ignore_le_zero then Some col else None);
  query_scalar (query_filter q (Cmp OpEq match_col match_value)).

Definition get_col_func_for_value (cls : DBObject) (db : list instance)
    (col : expr) (stat_func : sqlfunc) (match_col : expr) (match_value : value)
    (start_ts end_ts : value) (ignore_le_zero : bool) : result row :=
  fst <$> managed_session db (λ session,
    q ← s_query cls session (Select (Func stat_func col)) None start_ts end_ts
          (if ignore_le_zero then Some col else None);
    r ← query_scalar (query_filter q (Cmp OpEq match_col match_value));
    Ok (r, session)).

Definition _get_col_sum_for_value cls session col match_col match_value
    start_ts end_ts ignore_le_zero :=
  _get_col_func_for_value cls session col f_sum match_col match_value
    start_ts end_ts ignore_le_zero.
Definition get_col_sum_for_value cls db col match_col match_value
    start_ts end_ts ignore_le_zero :=
  get_col_func_for_value cls db col f_sum match_col match_value
    start_ts end_ts ignore_le_zero.
Definition s_get_col_avg_for_value cls session col match_col match_value
    start_ts end_ts ignore_le_zero :=
  _get_col_func_for_value cls session col f_avg match_col match_value
    start_ts end_ts ignore_le_zero.
Definition get_col_avg_for_value cls db col match_col match_value
    start_ts end_ts ignore_le_zero :=
  get_col_func_for_value cls db col f_avg match_col match_value
    start_ts end_ts ignore_le_zero.
Definition s_get_col_min_for_value cls session col match_col match_value
    start_ts end_ts ignore_le_zero :=
  _get_col_func_for_value cls session col f_min match_col match_value
    start_ts end_ts ignore_le_zero.
Definition get_col_min_for_value cls db col match_col match_value
    start_ts end_ts ignore_le_zero :=
  get_col_func_for_value cls db col f_min match_col match_value
    start_ts end_ts ignore_le_zero.
Definition s_get_col_max_for_value cls session col match_col match_value
    start_ts end_ts ignore_le_zero :=
  _get_col_func_for_value cls session col f_max match_col match_value
    start_ts end_ts ignore_le_zero.
Definition get_col_max_for_value cls db col match_col match_value
    start_ts end_ts ignore_le_zero :=
  get_col_func_for_value cls db col f_max match_col match_value
    start_ts end_ts ignore_le_zero.

(** *** Counting rows *)

(** [query.count()] *)
Definition query_count (q : Query) : nat := length (query_all q).

(** The bounds of a counted period are date-times. *)
Definition s_row_count_for_period (cls : DBObject) (session : Session)
    (start_ts end_ts : Z) : result nat :=
  tc ← time_col cls;
  Ok (query_count
        (query_filter
           (query_filter (session_query session Entity)
              (Cmp OpGe tc (VDateTime start_ts)))
           (Cmp OpLt tc (VDateTime end_ts)))).

Definition row_count_for_period (cls : DBObject) (db : list instance)
    (start_ts end_ts : Z) : result nat :=
  fst <$> managed_session db (λ session,
    n ← s_row_count_for_period cls session start_ts end_ts; Ok (n, session)).

Definition s_row_count_for_day (cls : DBObject) (session : Session)
    (day_date : Z) : result nat :=
  let start_ts := combine_min day_date in
  let end_ts := start_ts + timedelta 1 in
  s_row_count_for_period cls session start_ts end_ts.

Definition row_count_for_day (cls : DBObject) (db : list instance)
    (day_date : Z) : result nat :=
  let start_ts := combine_min day_date in
  let end_ts := start_ts + timedelta 1 in
  row_count_for_period cls db start_ts end_ts.

(** *** Periodic statistics

    [get_stats] is the method of the subclass that computes the statistics
    of a window; the helpers below choose the window and tag the result. *)

Class Stats := get_stats : Session → Z → Z → result dict.

Definition get_daily_stats `{Stats} (session : Session) (day_ts : Z)
    : result dict :=
  stats ← get_stats session day_ts (day_ts + timedelta 1);
  Ok (<["day" := VDateTime day_ts]> stats).

Definition get_weekly_stats `{Stats} (session : Session) (first_day_ts : Z)
    : result dict :=
  stats ← get_stats session first_day_ts (first_day_ts + timedelta 7);
  Ok (<["first_day" := VDateTime first_day_ts]> stats).



(** ** Reference definitions for the properties below *)

(** Schema discovery as "first primary key" reads: the identity column is
    the first primary-key column; the temporal column is that column when
    it is time-typed, and the first time-typed column otherwise. *)
Definition discoverColumns_first_key (cols : list Column)
    : option string * option string :=
  let identity := List.find primary_key cols in
  let first_temporal := List.find (λ col, is_time_type (type col)) cols in
  (name <$> identity,
   match identity with
   | Some pk => if is_time_type (type pk) then Some (name pk)
                else name <$> first_temporal
   | None => name <$> first_temporal
   end).

Definition is_time_key (col : Column) : bool :=
  primary_key col && is_time_type (type col).

(** The last column of a list that satisfies [p]. *)
Definition last_col (p : Column → bool) (cols : list Column) : option Column :=
  last (filter (λ col, p col = true) cols).

(** A row lies in the window of a query: at or after [start_ts] when that
    bound is given, and before [end_ts] when that bound is given. *)
Definition in_window (tc : option string) (start_ts end_ts : value)
    (r : instance) : bool :=
  match tc with
  | Some tc =>
      (is_none start_ts || holds (Cmp OpGe (Col tc) start_ts) r)
      && (is_none end_ts || holds (Cmp OpLt (Col tc) end_ts) r)
  | None => true
  end.

(** The value of [col] on a row is strictly greater than zero. *)
Definition positive (col : expr) (r : instance) : bool :=
  holds (Cmp OpGt col (VInt 0)) r.

(** The rows that contribute to an aggregate of [col]. *)
Definition contributing (cls : DBObject) (session : Session) (col : expr)
    (start_ts end_ts : value) (ignore_le_zero : bool) : list instance :=
  filter (λ r, in_window (time_col_name cls) start_ts end_ts r
               && (negb ignore_le_zero || positive col r) = true)
    (rows session).

(** The criterion that [s_find_one] adds for one match key: equality with
    the value in [values_dict], or with [None] when the key is left out. *)
Definition match_crit (cls : DBObject) (values_dict : dict) (n : string) : crit :=
  py_eq (get_col_by_name cls n) (default VNone (values_dict !! n)).

(** The seconds-since-midnight values that reach the aggregate of a
    time-of-day column. *)
Definition time_inputs (cls : DBObject) (session : Session) (col : expr)
    (start_ts end_ts : value) : list value :=
  eval (_secs_from_time col)
    <$> contributing cls session (_secs_from_time col) start_ts end_ts true.

(** The time that [__get_time_col_func] hands back for the text, or the
    absence, that its query produced. *)
Definition time_of_scalar (v : value) : result pytime :=
  match v with
  | VNone => Ok time_min
  | VText text => strptime_HMS text
  | _ => Err TypeError
  end.

(** The merge condition of [update_from_dict] for one entry. *)
Definition merges (cls : DBObject) (ignore_none ignore_zero : bool)
    (key : string) (v : value) : bool :=
  (negb ignore_none || negb (is_none v))
  && (negb ignore_zero || py_ne_zero v)
  && bool_decide (key ∈ get_col_names cls).

(** The maximum of [col] for each day of the year that has a row in
    [start_ts <= temporal column < end_ts]. *)
Definition daily_maxima (tc : string) (session : Session) (col : expr)
    (start_ts end_ts : value) : list value :=
  (λ day_rows, aggregate f_max (eval col <$> day_rows))
    <$> group_rows (Strftime fmt_j (Col tc))
          (filter (λ r, in_window (Some tc) start_ts end_ts r = true) (rows session)).

(** The rows that [s_get_for_period] keeps. *)
Definition in_period (tc : string) (start_ts end_ts : value)
    (not_none_col : option expr) (r : instance) : bool :=
  in_window (Some tc) start_ts end_ts r
  && from_option (λ c, negb (is_none (eval c r))) true not_none_col.

(** What [one_or_none] makes of the rows that pass. *)
Definition one_of (l : list instance) : result (option instance) :=
  match l with
  | [] => Ok None
  | [r] => Ok (Some r)
  | _ => Err MultipleResultsFound
  end.

(** The criteria of the query that [s_find_one] builds. *)
Definition find_one_crits (cls : DBObject) (values_dict : dict)
    : result (list crit) :=
  tc ← time_col cls;
  v ← dict_get values_dict (time_col_name cls);
  Ok match match_col_names cls with
     | Some names => (match_crit cls values_dict <$> names) ++ [Cmp OpEq tc v]
     | None => [Cmp OpEq tc v; Cmp OpEq tc v]
     end.

(** A criterion that compares a column with the dictionary's value for its
    name, [None] standing for a name left out. *)
Definition key_crit (values_dict : dict) (c : crit) : Prop :=
  ∃ n, c = Cmp OpEq (Col n) (default VNone (values_dict !! n)).

(** Every declared match key names a column of the table. *)
Definition match_cols_are_columns (cls : DBObject) : Prop :=
  ∀ names, match_col_names cls = Some names →
           ∀ n, n ∈ names → n ∈ get_col_names cls.

(** The text of a two-digit field: two characters, neither of them the
    colon, that read back as the number. *)
Definition pad2_ok (x : Z) : bool :=
  match pad2 x with
  | String a (String b EmptyString) =>
      negb (Ascii.eqb a ":") && negb (Ascii.eqb b ":")
      && bool_decide (parse_field (pad2 x) = Some x)
  | _ => false
  end.

(** ** Sample record types and rows *)

Definition sample_cls : DBObject :=
  setup {| columns :=
             [ {| name := "ts"; type := DateTime; primary_key := true |};
               {| name := "x"; type := Integer; primary_key := false |};
               {| name := "dev"; type := Integer; primary_key := false |};
               {| name := "t"; type := Time; primary_key := false |} ];
           get_col_name := None; time_col_name := None;
           match_col_names := None |}.

Definition sample_row (ts x dev : Z) : instance :=
  <["ts" := VDateTime ts]> (<["x" := VInt x]> (<["dev" := VInt dev]> ∅)).

Definition march (d hh : Z) : Z := datetime 2021 3 d hh 0 0.

(** A record type with a two-column primary key. *)
Definition two_key_cls : DBObject :=
  {| columns :=
       [ {| name := "activity_id"; type := String_; primary_key := true |};
         {| name := "lap"; type := Integer; primary_key := true |};
         {| name := "start_time"; type := DateTime; primary_key := false |} ];
     get_col_name := None; time_col_name := None; match_col_names := None |}.

Definition half_open_rows : list instance :=
  [ sample_row (march 1 0) 1 1; sample_row (march 1 12) 2 1;
    sample_row (march 2 0) 3 1 ].

Definition positivity_session : Session :=
  {| rows := [ sample_row (march 1 8) (-1) 1; sample_row (march 1 9) 0 2;
               sample_row (march 2 8) 5 1; sample_row (march 2 20) 10 2;
               sample_row (march 3 0) 100 2 ];
     added := [] |}.

Definition time_row (ts t : Z) : instance :=
  <["ts" := VDateTime ts]> (<["t" := VTime t]> ∅).

Definition time_session : Session :=
  {| rows := [ time_row (march 1 8) 3600; time_row (march 1 9) 10800 ];
     added := [] |}.

(** A record type with the match-key set [a, b]. *)
Definition match_cls : DBObject :=
  setup {| columns :=
             [ {| name := "id"; type := Integer; primary_key := true |};
               {| name := "ts"; type := DateTime; primary_key := false |};
               {| name := "a"; type := Integer; primary_key := false |};
               {| name := "b"; type := Integer; primary_key := false |} ];
           get_col_name := None; time_col_name := None;
           match_col_names := Some ["a"; "b"] |}.

Definition match_row_null : instance :=
  <["id" := VInt 1]> (<["ts" := VDateTime (march 1 8)]>
    (<["a" := VInt 1]> (<["b" := VNone]> ∅))).

Definition match_row_two : instance :=
  <["id" := VInt 2]> (<["ts" := VDateTime (march 1 8)]>
    (<["a" := VInt 1]> (<["b" := VInt 2]> ∅))).

Definition match_session : Session :=
  {| rows := [match_row_null; match_row_two]; added := [] |}.

Definition upsert_cls : DBObject :=
  setup {| columns :=
             [ {| name := "id"; type := Integer; primary_key := true |};
               {| name := "x"; type := Integer; primary_key := false |};
               {| name := "y"; type := Integer; primary_key := false |} ];
           get_col_name := None; time_col_name := None;
           match_col_names := None |}.

Definition upsert_row (x y : value) : instance :=
  <["id" := VInt 1]> (<["x" := x]> (<["y" := y]> ∅)).

(** Two days of readings: [3, 7] on the first of March, [2, 9] on the
    second; the first reading of each day comes from device 1. *)
Definition daily_rows : list instance :=
  [ sample_row (march 1 8) 3 1; sample_row (march 1 9) 7 2;
    sample_row (march 2 8) 2 1; sample_row (march 2 20) 9 2 ].



(** * Properties *)

Example datetime_2021 : datetime 2021 1 1 0 0 0 = 1609459200.
Proof. reflexivity. Qed.

Example day_of_year_leap : day_of_year (datetime 2020 12 31 23 59 59) = 366.
Proof. reflexivity. Qed.

Example day_of_year_march : day_of_year (datetime 2021 3 1 12 0 0) = 60.
Proof. reflexivity. Qed.

Example strptime_example :
  strptime_HMS "02:00:00" = Ok {| hour := 2; minute := 0; second := 0 |}.
Proof. reflexivity. Qed.

Example sample_cls_discovered :
  get_col_name sample_cls = Some "ts" ∧ time_col_name sample_cls = Some "ts".
Proof. split; reflexivity. Qed.

(** ** Comparisons *)

Lemma string_compare_refl (s : string) : String.compare s s = Eq.
Proof.
  pose proof (String.compare_antisym s s) as H.
  destruct (String.compare s s); simpl in H; congruence.
Qed.

Lemma Qcompare_refl (q : Q) : Qcompare q q = Eq.
Proof. apply Qeq_alt. reflexivity. Qed.

Lemma compare_values_refl (a b : value) (c : comparison) :
  compare_values a b = Some c → compare_values a a = Some Eq.
Proof.
  destruct a, b; simpl; try discriminate; intros _;
    rewrite ?Z.compare_refl, ?Qcompare_refl, ?string_compare_refl; reflexivity.
Qed.

Lemma compare_values_refl_r (a b : value) (c : comparison) :
  compare_values a b = Some c → compare_values b b = Some Eq.
Proof.
  destruct a, b; simpl; try discriminate; intros _;
    rewrite ?Z.compare_refl, ?Qcompare_refl, ?string_compare_refl; reflexivity.
Qed.

Lemma compare_values_not_none (a b : value) (c : comparison) :
  compare_values a b = Some c → a ≠ VNone ∧ b ≠ VNone.
Proof. destruct a, b; simpl; try discriminate; intros _; split; discriminate. Qed.

Lemma compare_values_irrefl (a : value) : compare_values a a ≠ Some Lt.
Proof.
  destruct a; simpl; try discriminate;
    rewrite ?Z.compare_refl, ?Qcompare_refl, ?string_compare_refl; discriminate.
Qed.

(** ** Queries *)

Lemma passes_snoc (cs : list crit) (c : crit) (r : instance) :
  passes (cs ++ [c]) r = passes cs r && holds c r.
Proof.
  unfold passes. rewrite forallb_app. simpl. rewrite andb_true_r. reflexivity.
Qed.

Lemma elem_of_query_rows (q : Query) (r : instance) :
  r ∈ query_rows q ↔ r ∈ q_from q ∧ passes (q_where q) r = true.
Proof.
  unfold query_rows. destruct (q_order_by q) as [e|].
  - rewrite merge_sort_Permutation, list_elem_of_filter. tauto.
  - rewrite list_elem_of_filter. tauto.
Qed.

Lemma elem_of_query_all_entity (q : Query) (r : instance) :
  q_select q = Entity → RowEntity r ∈ query_all q ↔ r ∈ query_rows q.
Proof.
  intros Hsel. unfold query_all. rewrite Hsel. rewrite list_elem_of_fmap. split.
  - intros (y & Heq & Hy). congruence.
  - intros Hr. eauto.
Qed.

(** ** Schema introspection *)

Lemma setup_primary_key_columns (cls : DBObject) (col : Column) :
  columns (setup_primary_key cls col) = columns cls
  ∧ match_col_names (setup_primary_key cls col) = match_col_names cls.
Proof.
  unfold setup_primary_key.
  destruct (primary_key col), (is_time_type (type col)); split; reflexivity.
Qed.

Lemma last_col_snoc (p : Column → bool) (cols : list Column) (col : Column) :
  last_col p (cols ++ [col]) = if p col then Some col else last_col p cols.
Proof.
  unfold last_col. rewrite filter_app. destruct (p col) eqn:Hp.
  - rewrite filter_cons_True by exact Hp. rewrite filter_nil. apply last_snoc.
  - rewrite filter_cons_False by congruence. rewrite filter_nil, app_nil_r.
    reflexivity.
Qed.

Lemma foldl_setup_get_col_name (cols : list Column) (cls : DBObject) :
  get_col_name (foldl setup_primary_key cls cols) =
  match last_col primary_key cols with
  | Some col => Some (name col)
  | None => get_col_name cls
  end.
Proof.
  induction cols as [|col cols IH] using rev_ind; [reflexivity|].
  rewrite foldl_snoc, last_col_snoc. unfold setup_primary_key at 1.
  destruct (primary_key col); [|exact IH].
  destruct (is_time_type (type col)); reflexivity.
Qed.

Lemma foldl_setup_time_col_name (cols : list Column) (cls : DBObject) :
  time_col_name (foldl setup_primary_key cls cols) =
  match last_col is_time_key cols with
  | Some col => Some (name col)
  | None => time_col_name cls
  end.
Proof.
  induction cols as [|col cols IH] using rev_ind; [reflexivity|].
  rewrite foldl_snoc, last_col_snoc. unfold setup_primary_key at 1, is_time_key at 1.
  destruct (primary_key col); [|exact IH].
  destruct (is_time_type (type col)); [reflexivity|exact IH].
Qed.

Lemma foldl_setup_columns (cols : list Column) (cls : DBObject) :
  columns (foldl setup_primary_key cls cols) = columns cls.
Proof.
  induction cols as [|col cols IH] using rev_ind; [reflexivity|].
  rewrite foldl_snoc. rewrite (proj1 (setup_primary_key_columns _ _)). exact IH.
Qed.

(** The two names that [setup_table_vars] leaves on the class. *)
Lemma setup_table_vars_names (cls : DBObject) :
  get_col_name (setup_table_vars cls) =
    match last_col primary_key (columns cls) with
    | Some col => Some (name col)
    | None => get_col_name cls
    end
  ∧ time_col_name (setup_table_vars cls) =
    match last_col is_time_key (columns cls) with
    | Some col => Some (name col)
    | None =>
        match time_col_name cls with
        | Some n => Some n
        | None => name <$> List.find (λ col, is_time_type (type col)) (columns cls)
        end
    end.
Proof.
  unfold setup_table_vars.
  pose proof (foldl_setup_get_col_name (columns cls) cls) as Hget.
  pose proof (foldl_setup_time_col_name (columns cls) cls) as Htime.
  pose proof (foldl_setup_columns (columns cls) cls) as Hcols.
  destruct (time_col_name (foldl setup_primary_key cls (columns cls))) as [n|] eqn:Hn.
  - split; [exact Hget|]. rewrite Hn.
    destruct (last_col is_time_key (columns cls)); [congruence|].
    rewrite <- Htime. reflexivity.
  - rewrite Hcols.
    destruct (last_col is_time_key (columns cls)) as [k|]; [discriminate|].
    rewrite <- Htime.
    destruct (List.find (λ col, is_time_type (type col)) (columns cls)) as [col|];
      simpl; (split; [exact Hget|]); [reflexivity|exact Hn].
Qed.



Example setup_two_key_cls :
  get_col_name (setup_table_vars two_key_cls) = Some "lap"
  ∧ time_col_name (setup_table_vars two_key_cls) = Some "start_time".
Proof. split; reflexivity. Qed.

Lemma find_head_filter {A} (p : A → bool) (l : list A) :
  List.find p l = head (filter (λ x, p x = true) l).
Proof.
  induction l as [|x l IH]; [reflexivity|]. simpl. destruct (p x) eqn:Hp.
  - rewrite filter_cons_True by exact Hp. reflexivity.
  - rewrite filter_cons_False by congruence. exact IH.
Qed.

Lemma last_head_short {A} (l : list A) : (length l ≤ 1)%nat → last l = head l.
Proof. destruct l as [|x [|y l]]; simpl; intros; try reflexivity; lia. Qed.

(** With at most one primary-key column, and on a class that has not been
    set up before, discovery is the "first primary key" reading. *)
Lemma setup_table_vars_single_key (cls : DBObject) :
  (length (filter (λ col, primary_key col = true) (columns cls)) ≤ 1)%nat →
  get_col_name cls = None → time_col_name cls = None →
  (get_col_name (setup_table_vars cls), time_col_name (setup_table_vars cls))
  = discoverColumns_first_key (columns cls).
Proof.
  intros Hone Hget Htime.
  destruct (setup_table_vars_names cls) as [-> ->].
  unfold discoverColumns_first_key, last_col. rewrite Hget, Htime.
  rewrite (find_head_filter primary_key).
  rewrite (last_head_short _ Hone).
  destruct (filter (λ col, primary_key col = true) (columns cls))
    as [|pk [|pk' rest]] eqn:Hpk; simpl in Hone; try lia.
  - assert (filter (λ col, is_time_key col = true) (columns cls) = []) as ->.
    { apply elem_of_nil_inv. intros col Hin.
      apply list_elem_of_filter in Hin as [Hk Hin]. unfold is_time_key in Hk.
      assert (col ∈ filter (λ col, primary_key col = true) (columns cls)) as Hc.
      { apply list_elem_of_filter. split; [|exact Hin].
        destruct (primary_key col); [reflexivity|discriminate]. }
      rewrite Hpk in Hc. inversion Hc. }
    reflexivity.
  - simpl. f_equal.
    assert (filter (λ col, is_time_key col = true) (columns cls)
            = if is_time_type (type pk) then [pk] else []) as ->.
    { assert (∀ col, is_time_key col = true ↔
                     is_time_type (type col) = true ∧ primary_key col = true) as Hk.
      { intros col. unfold is_time_key. rewrite andb_true_iff. tauto. }
      rewrite (list_filter_iff _ _ _ Hk), <- list_filter_filter, Hpk.
      destruct (is_time_type (type pk)) eqn:Ht.
      - rewrite filter_cons_True by exact Ht. reflexivity.
      - rewrite filter_cons_False by congruence. reflexivity. }
    destruct (is_time_type (type pk)); reflexivity.
Qed.

Lemma holds_lt (e : expr) (v : value) (r : instance) :
  holds (Cmp OpLt e v) r = true ↔ compare_values (eval e r) v = Some Lt.
Proof.
  destruct v; simpl; destruct (compare_values (eval e r) _) as [[]|]; simpl;
    split; congruence.
Qed.

Lemma holds_ge (e : expr) (v : value) (r : instance) :
  holds (Cmp OpGe e v) r = true ↔
  compare_values (eval e r) v = Some Eq ∨ compare_values (eval e r) v = Some Gt.
Proof.
  destruct v; simpl; destruct (compare_values (eval e r) _) as [[]|]; simpl;
    intuition congruence.
Qed.

Lemma holds_gt (e : expr) (v : value) (r : instance) :
  holds (Cmp OpGt e v) r = true ↔ compare_values (eval e r) v = Some Gt.
Proof.
  destruct v; simpl; destruct (compare_values (eval e r) _) as [[]|]; simpl;
    split; congruence.
Qed.

Lemma in_window_both (tc : string) (start_ts end_ts : value) (r : instance) :
  start_ts ≠ VNone → end_ts ≠ VNone →
  in_window (Some tc) start_ts end_ts r = true ↔
  (compare_values (getattr r tc) start_ts = Some Eq
   ∨ compare_values (getattr r tc) start_ts = Some Gt)
  ∧ compare_values (getattr r tc) end_ts = Some Lt.
Proof.
  intros Hs He. unfold in_window.
  replace (is_none start_ts) with false by (destruct start_ts; simpl; congruence).
  replace (is_none end_ts) with false by (destruct end_ts; simpl; congruence).
  rewrite !orb_false_l, andb_true_iff, holds_ge, holds_lt. reflexivity.
Qed.

Lemma in_window_end (tc : string) (start_ts end_ts : value) (r : instance) :
  end_ts ≠ VNone → in_window (Some tc) start_ts end_ts r = true →
  compare_values (getattr r tc) end_ts = Some Lt.
Proof.
  intros He. unfold in_window.
  replace (is_none end_ts) with false by (destruct end_ts; simpl; congruence).
  rewrite orb_false_l, andb_true_iff, holds_lt. intros [_ H]. exact H.
Qed.

(** ** The query builder *)

(** What [s_query] builds: the selection and the ordering it was given,
    over the rows of the session, with criteria that hold exactly on the
    rows in the window that pass the positivity filter.  A window needs a
    temporal column. *)
Lemma s_query_spec (cls : DBObject) (session : Session) (sel : selectable)
    (order_by : option expr) (start_ts end_ts : value)
    (ignore_le_zero_col : option expr) :
  (time_col_name cls = None → start_ts = VNone ∧ end_ts = VNone) →
  ∃ q, s_query cls session sel order_by start_ts end_ts ignore_le_zero_col = Ok q
       ∧ q_select q = sel
       ∧ q_from q = rows session
       ∧ q_order_by q = order_by
       ∧ q_group_by q = None
       ∧ ∀ r, passes (q_where q) r =
              in_window (time_col_name cls) start_ts end_ts r
              && from_option (λ c, positive c r) true ignore_le_zero_col.
Proof.
  intros Htc. unfold s_query, during, after, before, time_col, in_window.
  destruct (time_col_name cls) as [tc|].
  - destruct (is_none start_ts) eqn:Hs, (is_none end_ts) eqn:He;
      destruct order_by as [o|], ignore_le_zero_col as [c|]; simpl;
      eexists; (split; [reflexivity|]); repeat split; intros r;
      unfold passes, positive; simpl; rewrite ?andb_true_r; reflexivity.
  - destruct (Htc eq_refl) as [-> ->].
    destruct order_by as [o|], ignore_le_zero_col as [c|]; simpl;
      eexists; (split; [reflexivity|]); repeat split; intros r;
      unfold passes, positive; simpl; rewrite ?andb_true_r; reflexivity.
Qed.

(** X6: A window on a record type that has no temporal column: [s_query]
    raises [AttributeError] as soon as one bound is given. *)
Lemma s_query_no_time_col (cls : DBObject) (session : Session)
    (sel : selectable) (order_by : option expr) (start_ts end_ts : value)
    (ignore_le_zero_col : option expr) :
  time_col_name cls = None → start_ts ≠ VNone ∨ end_ts ≠ VNone →
  s_query cls session sel order_by start_ts end_ts ignore_le_zero_col
  = Err AttributeError.
Proof.
  intros Htc Hb. unfold s_query, during, after, before, time_col. rewrite Htc.
  destruct start_ts, end_ts, order_by; simpl; try reflexivity.
  all: destruct Hb; congruence.
Qed.

(** C6: with both bounds given, [startTime] before [endTime], the window
    of [s_query] is half-open.  The query is built; a stored record whose
    temporal column equals [start_ts] is in its result; a record whose
    temporal column equals [end_ts] is not; and the result holds exactly
    the stored records with [start_ts <= temporal column < end_ts]. *)
Theorem s_query_half_open (cls : DBObject) (session : Session)
    (order_by : option expr) (start_ts end_ts : value) (tc : string) :
  time_col_name cls = Some tc →
  compare_values start_ts end_ts = Some Lt →
  ∃ q, s_query cls session Entity order_by start_ts end_ts None = Ok q
       ∧ (∀ r, r ∈ rows session → getattr r tc = start_ts →
               RowEntity r ∈ query_all q)
       ∧ (∀ r, getattr r tc = end_ts → RowEntity r ∉ query_all q)
       ∧ (∀ r, RowEntity r ∈ query_all q ↔
               r ∈ rows session
               ∧ (compare_values (getattr r tc) start_ts = Some Eq
                  ∨ compare_values (getattr r tc) start_ts = Some Gt)
               ∧ compare_values (getattr r tc) end_ts = Some Lt).
Proof.
  intros Htc Hlt.
  destruct (compare_values_not_none _ _ _ Hlt) as [Hs He].
  destruct (s_query_spec cls session Entity order_by start_ts end_ts None)
    as (q & Hq & Hsel & Hfrom & _ & _ & Hpass).
  { rewrite Htc. discriminate. }
  assert (∀ r, RowEntity r ∈ query_all q ↔
               r ∈ rows session
               ∧ (compare_values (getattr r tc) start_ts = Some Eq
                  ∨ compare_values (getattr r tc) start_ts = Some Gt)
               ∧ compare_values (getattr r tc) end_ts = Some Lt) as Hchar.
  { intros r. rewrite (elem_of_query_all_entity q r Hsel), elem_of_query_rows.
    rewrite Hfrom, Hpass, Htc. simpl. rewrite andb_true_r.
    rewrite (in_window_both tc start_ts end_ts r Hs He). reflexivity. }
  exists q. split; [exact Hq|]. split; [|split; [|exact Hchar]].
  - intros r Hin Hr. apply Hchar. rewrite Hr. split; [exact Hin|]. split.
    + left. exact (compare_values_refl _ _ _ Hlt).
    + exact Hlt.
  - intros r Hr Hin. apply Hchar in Hin as (_ & _ & Hend). rewrite Hr in Hend.
    exact (compare_values_irrefl _ Hend).
Qed.

(** The exclusive end does not depend on the selection, the ordering or
    the positivity filter. *)
Lemma s_query_excludes_end (cls : DBObject) (session : Session)
    (sel : selectable) (order_by : option expr) (start_ts end_ts : value)
    (ignore_le_zero_col : option expr) (tc : string) (q : Query) (r : instance) :
  time_col_name cls = Some tc → end_ts ≠ VNone →
  s_query cls session sel order_by start_ts end_ts ignore_le_zero_col = Ok q →
  getattr r tc = end_ts → r ∉ query_rows q.
Proof.
  intros Htc He Hq Hr Hin.
  destruct (s_query_spec cls session sel order_by start_ts end_ts ignore_le_zero_col)
    as (q' & Hq' & _ & _ & _ & _ & Hpass).
  { rewrite Htc. discriminate. }
  rewrite Hq in Hq'. injection Hq' as <-.
  apply elem_of_query_rows in Hin as [_ Hp]. rewrite Hpass, Htc in Hp.
  apply andb_true_iff in Hp as [Hp _].
  apply (in_window_end tc start_ts end_ts r He) in Hp. rewrite Hr in Hp.
  exact (compare_values_irrefl _ Hp).
Qed.

Lemma s_query_half_open_witness :
  ∃ q, s_query sample_cls {| rows := half_open_rows; added := [] |} Entity None
         (VDateTime (march 1 0)) (VDateTime (march 2 0)) None = Ok q
       ∧ RowEntity (sample_row (march 1 0) 1 1) ∈ query_all q
       ∧ RowEntity (sample_row (march 2 0) 3 1) ∉ query_all q.
Proof.
  destruct (s_query_half_open sample_cls {| rows := half_open_rows; added := [] |}
              None (VDateTime (march 1 0)) (VDateTime (march 2 0)) "ts")
    as (q & Hq & Hstart & Hend & _).
  - reflexivity.
  - reflexivity.
  - exists q. split; [exact Hq|]. split.
    + apply Hstart; [|reflexivity]. apply list_elem_of_here.
    + apply Hend. reflexivity.
Defined.

(** ** Scalar aggregates *)

Lemma query_scalar_single (q : Query) (v : value) :
  query_all q = [RowValue v] → query_scalar q = Ok (RowValue v).
Proof. intros H. unfold query_scalar, query_one_or_none. rewrite H. reflexivity. Qed.





(** The flag of [s_get_col_max] reaches the query as it does for
    [s_get_col_min]: both build the same query for the same flag. *)
Lemma s_get_col_max_flag_as_min (cls : DBObject) (session : Session)
    (col : expr) (f : sqlfunc) (start_ts end_ts : value) (b : bool) :
  s_get_col_func_query cls session col f start_ts end_ts (PyBool b)
  = s_get_col_func_query cls session col f start_ts end_ts
      (if b then PyExpr col else PyNone).
Proof. destruct b; reflexivity. Qed.

(** ** Aggregates of a time-of-day column *)

Lemma query_all_ext (q q' : Query) :
  q_select q = q_select q' → q_group_by q = q_group_by q' →
  query_rows q = query_rows q' → query_all q = query_all q'.
Proof. intros Hs Hg Hr. unfold query_all. rewrite Hs, Hg, Hr. reflexivity. Qed.

Lemma strftime_midnight_text : strftime fmt_s (VText "00:00") = VInt epoch_2000.
Proof. reflexivity. Qed.

Lemma secs_from_time_VTime (col : expr) (r : instance) (t : Z) :
  eval col r = VTime t → eval (_secs_from_time col) r = VInt t.
Proof.
  intros H. unfold _secs_from_time. cbn [eval].
  rewrite H, strftime_midnight_text. cbn [strftime sql_sub]. f_equal. lia.
Qed.

Lemma secs_from_time_midnight (col : expr) (r : instance) :
  eval col r = VTime 0 → eval (_secs_from_time col) r = VInt 0.
Proof. apply secs_from_time_VTime. Qed.

Lemma positive_secs_not_midnight (col : expr) (r : instance) :
  positive (_secs_from_time col) r = true → eval col r ≠ VTime 0.
Proof.
  intros Hpos Hmid. unfold positive in Hpos. apply holds_gt in Hpos.
  rewrite (secs_from_time_midnight col r Hmid) in Hpos. discriminate Hpos.
Qed.

Lemma get_time_col_func_spec (cls : DBObject) (session : Session) (col : expr)
    (f : sqlfunc) (start_ts end_ts : value) :
  (time_col_name cls = None → start_ts = VNone ∧ end_ts = VNone) →
  f ≠ f_distinct →
  __get_time_col_func cls session col f start_ts end_ts
  = time_of_scalar
      (time_unixepoch (aggregate f (time_inputs cls session col start_ts end_ts))).
Proof.
  intros Htc Hf. unfold __get_time_col_func.
  destruct (s_query_spec cls session
              (Select (time_from_secs (Func f (_secs_from_time col)))) None
              start_ts end_ts (Some (_secs_from_time col)) Htc)
    as (q & -> & Hsel & Hfrom & Hord & Hgrp & Hpass).
  assert (query_rows q
          = contributing cls session (_secs_from_time col) start_ts end_ts true)
    as Hrows.
  { unfold query_rows, contributing. rewrite Hord, Hfrom.
    apply list_filter_iff. intros r. rewrite Hpass. reflexivity. }
  assert (query_all q
          = [RowValue (time_unixepoch
                         (aggregate f (time_inputs cls session col start_ts end_ts)))])
    as Hall.
  { unfold query_all. rewrite Hsel, Hgrp, Hrows.
    unfold time_from_secs, is_aggregate. fold is_aggregate.
    rewrite (bool_decide_eq_true_2 _ Hf). reflexivity. }
  simpl. rewrite (query_scalar_single _ _ Hall). simpl.
  destruct (time_unixepoch _); reflexivity.
Qed.

Lemma aggregate_nil (f : sqlfunc) : f ≠ f_count → aggregate f [] = VNone.
Proof. destruct f; intros Hf; try reflexivity. contradiction. Qed.


(** No row in the window with a time after midnight: the aggregate has no
    input and the result is midnight. *)
Lemma time_col_func_empty_window (cls : DBObject) (session : Session)
    (col : expr) (f : sqlfunc) (start_ts end_ts : value) :
  (time_col_name cls = None → start_ts = VNone ∧ end_ts = VNone) →
  f ∈ [f_sum; f_avg; f_min; f_max] →
  contributing cls session (_secs_from_time col) start_ts end_ts true = [] →
  __get_time_col_func cls session col f start_ts end_ts = Ok time_min.
Proof.
  intros Htc Hf Hempty.
  assert (f ≠ f_distinct ∧ f ≠ f_count) as [Hd Hc].
  { split; intros ->;
      repeat (apply elem_of_cons in Hf as [Hf|Hf]; [discriminate|]);
      inversion Hf. }
  rewrite get_time_col_func_spec by assumption.
  unfold time_inputs. rewrite Hempty.
  change (eval (_secs_from_time col) <$> []) with (@nil value).
  rewrite (aggregate_nil f Hc). reflexivity.
Qed.


Example time_col_avg_two_hours :
  s_get_time_col_avg sample_cls time_session (Col "t")
    (VDateTime (march 1 0)) (VDateTime (march 2 0))
  = Ok {| hour := 2; minute := 0; second := 0 |}.
Proof. vm_compute. reflexivity. Qed.

Example time_col_avg_empty_table :
  get_time_col_avg sample_cls [] (Col "t") VNone VNone = Ok time_min.
Proof. vm_compute. reflexivity. Qed.

(** C10: the query of a time-of-day aggregate always carries the filter
    "seconds since midnight > 0"; no row whose time is exactly midnight is
    among the rows it ranges over; and the result is the one obtained with
    the midnight rows removed from the table. *)
Theorem time_col_func_excludes_midnight (cls : DBObject) (session : Session)
    (col : expr) (f : sqlfunc) (start_ts end_ts : value) :
  (time_col_name cls = None → start_ts = VNone ∧ end_ts = VNone) →
  (∃ q, s_query cls session
          (Select (time_from_secs (Func f (_secs_from_time col)))) None
          start_ts end_ts (Some (_secs_from_time col)) = Ok q
        ∧ (∀ r, r ∈ query_rows q → positive (_secs_from_time col) r = true)
        ∧ (∀ r, eval col r = VTime 0 → r ∉ query_rows q))
  ∧ __get_time_col_func cls session col f start_ts end_ts
    = __get_time_col_func cls
        {| rows := filter (λ r, eval col r ≠ VTime 0) (rows session);
           added := added session |}
        col f start_ts end_ts.
Proof.
  intros Htc.
  set (session' := {| rows := filter (λ r, eval col r ≠ VTime 0) (rows session);
                      added := added session |}).
  set (sel := Select (time_from_secs (Func f (_secs_from_time col)))).
  destruct (s_query_spec cls session sel None start_ts end_ts
              (Some (_secs_from_time col)) Htc)
    as (q & Hq & Hsel & Hfrom & Hord & Hgrp & Hpass).
  destruct (s_query_spec cls session' sel None start_ts end_ts
              (Some (_secs_from_time col)) Htc)
    as (q' & Hq' & Hsel' & Hfrom' & Hord' & Hgrp' & Hpass').
  assert (∀ r, r ∈ query_rows q → positive (_secs_from_time col) r = true) as Hpos.
  { intros r Hin. apply elem_of_query_rows in Hin as [_ Hp].
    rewrite Hpass in Hp. apply andb_true_iff in Hp as [_ Hp]. exact Hp. }
  split.
  - exists q. split; [exact Hq|]. split; [exact Hpos|].
    intros r Hmid Hin. exact (positive_secs_not_midnight col r (Hpos r Hin) Hmid).
  - unfold __get_time_col_func. fold sel. rewrite Hq, Hq'. simpl.
    assert (query_all q' = query_all q) as Hall.
    { apply query_all_ext; [congruence|congruence|].
      unfold query_rows. rewrite Hord, Hord', Hfrom, Hfrom'. unfold session'. simpl.
      rewrite list_filter_filter. apply list_filter_iff. intros r.
      rewrite Hpass, Hpass'. split; [tauto|]. intros Hp. split; [exact Hp|].
      apply andb_true_iff in Hp as [_ Hp].
      exact (positive_secs_not_midnight col r Hp). }
    unfold query_scalar, query_one_or_none. rewrite Hall. reflexivity.
Qed.

Lemma time_col_func_excludes_midnight_witness :
  __get_time_col_func sample_cls
    {| rows := time_row (march 1 7) 0 :: rows time_session; added := [] |}
    (Col "t") f_min (VDateTime (march 1 0)) (VDateTime (march 2 0))
  = Ok {| hour := 1; minute := 0; second := 0 |}.
Proof.
  destruct (time_col_func_excludes_midnight sample_cls
              {| rows := time_row (march 1 7) 0 :: rows time_session; added := [] |}
              (Col "t") f_min (VDateTime (march 1 0)) (VDateTime (march 2 0)))
    as [_ ->].
  - intros H. vm_compute in H. discriminate H.
  - vm_compute. reflexivity.
Defined.

(** ** Finding and creating *)

(** With a match-key set declared, [s_find_one] still reads the temporal
    column's value from [values_dict]: the lookup fails when it is left
    out. *)
Lemma s_find_one_needs_time_value (cls : DBObject) (session : Session)
    (values_dict : dict) (names : list string) (tc : string) :
  match_col_names cls = Some names → time_col_name cls = Some tc →
  values_dict !! tc = None →
  s_find_one cls session values_dict = Err KeyError.
Proof.
  intros Hm Htc Hd. unfold s_find_one, time_col, dict_get.
  rewrite Hm, Htc, Hd. reflexivity.
Qed.

(** C1, at the input of the claim: for [matchColumnNames = [a, b]] and the
    stored rows [a=1, b=null] and [a=1, b=2], [s_find_one({a: 1})] raises
    [KeyError] instead of returning the first row. *)
Theorem s_find_one_partial_dict_fails :
  s_find_one match_cls match_session {[ "a" := VInt 1 ]} = Err KeyError.
Proof. vm_compute. reflexivity. Qed.

(** With the temporal value supplied the match keys select the row with
    [b = null] and not the row with [b = 2]; the temporal value is one more
    equality of the filter, so another time finds nothing. *)
Example s_find_one_with_time_value :
  s_find_one match_cls match_session
    (<["a" := VInt 1]> {[ "ts" := VDateTime (march 1 8) ]}) = Ok (Some match_row_null)
  ∧ s_find_one match_cls match_session
      (<["a" := VInt 1]> {[ "ts" := VDateTime (march 1 9) ]}) = Ok None.
Proof. split; vm_compute; reflexivity. Qed.

(** C9: when [s_find_one] finds a record, [s_find_or_create] succeeds and
    leaves the session as it was: nothing is staged and no row changes.
    When [s_find_one] finds nothing, the record built from [values_dict]
    is staged, after the instances already staged, and no row changes.  A
    session that differs after the call means [s_find_one] found nothing. *)
Theorem s_find_or_create_spec (cls : DBObject) (session : Session)
    (values_dict : dict) (found : option instance) :
  s_find_one cls session values_dict = Ok found →
  match found with
  | Some _ => s_find_or_create cls session values_dict = Ok session
  | None =>
      s_find_or_create cls session values_dict
      = (new ← construct cls values_dict; Ok (session_add session new))
  end
  ∧ ∀ session', s_find_or_create cls session values_dict = Ok session' →
      rows session' = rows session
      ∧ match found with
        | Some _ => session' = session
        | None => added session' = added session ++ [values_dict]
        end.
Proof.
  intros Hfind. unfold s_find_or_create. rewrite Hfind. simpl.
  destruct found as [r|].
  - split; [reflexivity|]. intros session' [= <-]. split; reflexivity.
  - split; [reflexivity|]. intros session'. unfold construct.
    destruct (bool_decide _); simpl; [|discriminate].
    intros [= <-]. split; reflexivity.
Qed.

Lemma s_find_or_create_spec_witness :
  s_find_or_create match_cls match_session
    (<["a" := VInt 1]> {[ "ts" := VDateTime (march 1 8) ]}) = Ok match_session
  ∧ s_find_or_create match_cls match_session
      (<["a" := VInt 7]> {[ "ts" := VDateTime (march 1 8) ]})
    = Ok {| rows := rows match_session;
            added := [ <["a" := VInt 7]> {[ "ts" := VDateTime (march 1 8) ]} ] |}.
Proof.
  split.
  - apply (s_find_or_create_spec match_cls match_session
             (<["a" := VInt 1]> {[ "ts" := VDateTime (march 1 8) ]})
             (Some match_row_null)).
    vm_compute. reflexivity.
  - destruct (s_find_or_create_spec match_cls match_session
                (<["a" := VInt 7]> {[ "ts" := VDateTime (march 1 8) ]}) None)
      as [-> _].
    + vm_compute. reflexivity.
    + vm_compute. reflexivity.
Defined.

(** The store after [find_or_create] on a match is the store before. *)
Lemma find_or_create_found (cls : DBObject) (db : list instance)
    (values_dict : dict) (r : instance) :
  s_find_one cls {| rows := db; added := [] |} values_dict = Ok (Some r) →
  find_or_create cls db values_dict = Ok ((), db).
Proof.
  intros Hfind. unfold find_or_create, managed_session, s_find_or_create.
  rewrite Hfind. simpl. rewrite app_nil_r. reflexivity.
Qed.

(** ** Inserting or updating *)

(** [update_from_dict], attribute by attribute: an entry of [values_dict]
    that passes the merge condition replaces the attribute of its name, and
    every other attribute keeps its value. *)
Lemma update_from_dict_lookup (cls : DBObject) (self : instance)
    (values_dict : dict) (ignore_none ignore_zero : bool) (k : string) :
  update_from_dict cls self values_dict ignore_none ignore_zero !! k =
  match values_dict !! k with
  | Some v => if merges cls ignore_none ignore_zero k v then Some v else self !! k
  | None => self !! k
  end.
Proof.
  unfold update_from_dict. revert k.
  apply (map_fold_weak_ind
           (λ (r : instance) (m : dict), ∀ k,
              r !! k = match m !! k with
                       | Some v => if merges cls ignore_none ignore_zero k v
                                   then Some v else self !! k
                       | None => self !! k
                       end)).
  - intros k. rewrite lookup_empty. reflexivity.
  - intros i x m r Hi IH k. fold (merges cls ignore_none ignore_zero i x).
    destruct (decide (i = k)) as [->|Hne].
    + rewrite lookup_insert_eq.
      destruct (merges cls ignore_none ignore_zero k x).
      * apply lookup_insert_eq.
      * rewrite IH, Hi. reflexivity.
    + rewrite (lookup_insert_ne m) by exact Hne.
      destruct (merges cls ignore_none ignore_zero i x).
      * rewrite lookup_insert_ne by exact Hne. apply IH.
      * apply IH.
Qed.

(** With [ignore_none] set, an entry whose value is [None] leaves the
    attribute as it was. *)
Lemma update_from_dict_ignore_none (cls : DBObject) (self : instance)
    (values_dict : dict) (ignore_zero : bool) (k : string) :
  values_dict !! k = Some VNone →
  update_from_dict cls self values_dict true ignore_zero !! k = self !! k.
Proof. intros Hk. rewrite update_from_dict_lookup, Hk. reflexivity. Qed.

(** Without it, the [None] is written into the column. *)
Lemma update_from_dict_writes_none (cls : DBObject) (self : instance)
    (values_dict : dict) (k : string) :
  values_dict !! k = Some VNone → k ∈ get_col_names cls →
  update_from_dict cls self values_dict false false !! k = Some VNone.
Proof.
  intros Hk Hcol. rewrite update_from_dict_lookup, Hk. unfold merges. simpl.
  rewrite (bool_decide_eq_true_2 _ Hcol). reflexivity.
Qed.

(** The session-scoped [s_insert_or_update], called without flags, merges
    with [ignore_none = True]: on the record it finds, every column whose
    entry in [values_dict] is [None] keeps its value. *)
Lemma s_insert_or_update_default_keeps (cls : DBObject) (session : Session)
    (values_dict : dict) (i : nat) (self : instance) :
  s_get_from_dict cls session values_dict = Ok (Some (i, self)) →
  ∃ self', s_insert_or_update cls session values_dict None None
           = Ok {| rows := <[i := self']> (rows session); added := added session |}
           ∧ ∀ k, values_dict !! k = Some VNone → self' !! k = self !! k.
Proof.
  intros Hget. unfold s_insert_or_update. rewrite Hget. simpl.
  eexists. split; [reflexivity|]. intros k Hk.
  apply update_from_dict_ignore_none. exact Hk.
Qed.

(** [insert_or_update], called without flags, hands [ignore_none = False]
    to [s_insert_or_update]: on the record it finds, a column whose entry in
    [values_dict] is [None] becomes [None]. *)
Lemma insert_or_update_default_overwrites (cls : DBObject) (db : list instance)
    (values_dict : dict) (i : nat) (self : instance) :
  s_get_from_dict cls {| rows := db; added := [] |} values_dict = Ok (Some (i, self)) →
  ∃ self', insert_or_update cls db values_dict None = Ok ((), <[i := self']> db)
           ∧ ∀ k, values_dict !! k = Some VNone → k ∈ get_col_names cls →
                  self' !! k = Some VNone.
Proof.
  intros Hget. unfold insert_or_update, managed_session, s_insert_or_update.
  rewrite Hget. simpl. rewrite app_nil_r.
  eexists. split; [reflexivity|]. intros k Hk Hcol.
  apply update_from_dict_writes_none; assumption.
Qed.

(** C8, at a failing input: the stored record [id=1, x=5, y=7] and
    [values_dict = {id: 1, x: None, y: 9}].  [insert_or_update] without
    flags overwrites [x] with [None]; [s_insert_or_update] without flags
    keeps [x = 5]. *)
Theorem insert_or_update_default_flags :
  insert_or_update upsert_cls [upsert_row (VInt 5) (VInt 7)]
    (upsert_row VNone (VInt 9)) None
  = Ok ((), [upsert_row VNone (VInt 9)])
  ∧ s_insert_or_update upsert_cls
      {| rows := [upsert_row (VInt 5) (VInt 7)]; added := [] |}
      (upsert_row VNone (VInt 9)) None None
    = Ok {| rows := [upsert_row (VInt 5) (VInt 9)]; added := [] |}.
Proof. split; vm_compute; reflexivity. Qed.

(** ** Aggregates of the daily maxima *)

Lemma filter_passes_nil (l : list instance) :
  filter (λ r, passes [] r = true) l = l.
Proof.
  induction l as [|r l IH]; [reflexivity|].
  rewrite filter_cons_True by reflexivity. rewrite IH. reflexivity.
Qed.

Lemma omap_fmap_Some {A B C} (f : A → B) (g : B → option C) (h : A → C)
    (l : list A) :
  (∀ x, g (f x) = Some (h x)) → omap g (f <$> l) = h <$> l.
Proof.
  intros H. induction l as [|x l IH]; [reflexivity|].
  rewrite !fmap_cons. cbn [omap list_omap]. rewrite H, IH. reflexivity.
Qed.

(** The subquery of the daily maxima, one row per day. *)
Lemma max_daily_subquery (session : Session) (col : expr)
    (start_ts end_ts : value) (tc : string) :
  start_ts ≠ VNone → end_ts ≠ VNone →
  query_subquery
    (query_group_by
       (query_filter
          (session_query session (Select (Label (Func f_max col) "maxes")))
          (And_ (Cmp OpGe (Col tc) start_ts) (Cmp OpLt (Col tc) end_ts)))
       (Strftime fmt_j (Col tc)))
  = (λ v, {[ "maxes" := v ]}) <$> daily_maxima tc session col start_ts end_ts.
Proof.
  intros Hs He. unfold query_subquery, query_all, daily_maxima.
  cbn [q_select q_group_by query_group_by query_filter session_query label_of].
  rewrite (omap_fmap_Some _ _
             (λ g, {[ "maxes" := aggregate f_max (eval col <$> g) ]}))
    by reflexivity.
  rewrite <- list_fmap_compose. f_equal. f_equal.
  unfold query_rows. cbn [q_order_by q_where q_from query_group_by query_filter
                          session_query app].
  apply list_filter_iff. intros r. unfold passes, in_window. cbn [forallb holds].
  replace (is_none start_ts) with false by (destruct start_ts; simpl; congruence).
  replace (is_none end_ts) with false by (destruct end_ts; simpl; congruence).
  rewrite andb_true_r. reflexivity.
Qed.

(** An aggregate over the only column of a subquery. *)
Lemma query_over_labelled (session : Session) (f : sqlfunc) (vs : list value) :
  f ≠ f_distinct →
  query_all (session_query_over session ((λ v, {[ "maxes" := v ]}) <$> vs)
               (Select (Func f (Col "maxes"))))
  = [RowValue (aggregate f vs)].
Proof.
  intros Hf. unfold query_all, query_rows.
  cbn [q_select q_group_by q_order_by q_where q_from session_query_over].
  unfold is_aggregate. rewrite (bool_decide_eq_true_2 _ Hf).
  rewrite filter_passes_nil. cbn [orb eval_group]. do 3 f_equal.
  rewrite <- list_fmap_compose. rewrite <- (list_fmap_id vs) at 2.
  apply list_fmap_ext. intros i v _. cbn. unfold getattr.
  rewrite lookup_singleton_eq. reflexivity.
Qed.

(** X18: The nested query: the outer function over the daily maxima.  The
    values of [match_col] and [match_value] have no part in it. *)
Lemma s_get_col_func_of_max_per_day_for_value_spec (cls : DBObject)
    (session : Session) (col : expr) (f : sqlfunc) (start_ts end_ts : value)
    (match_col : option expr) (match_value : value) (tc : string) :
  time_col_name cls = Some tc → start_ts ≠ VNone → end_ts ≠ VNone →
  f ≠ f_distinct →
  s_get_col_func_of_max_per_day_for_value cls session col f start_ts end_ts
    match_col match_value
  = Ok (RowValue (aggregate f (daily_maxima tc session col start_ts end_ts))).
Proof.
  intros Htc Hs He Hf.
  unfold s_get_col_func_of_max_per_day_for_value, during, time_col.
  rewrite Htc. cbn [mbind result_bind]. apply query_scalar_single.
  rewrite (max_daily_subquery session col start_ts end_ts tc Hs He).
  apply query_over_labelled. exact Hf.
Qed.

(** The match arguments are dropped: any two calls that differ only in
    them return the same. *)
Lemma s_get_col_func_of_max_per_day_for_value_ignores_match (cls : DBObject)
    (session : Session) (col : expr) (f : sqlfunc) (start_ts end_ts : value)
    (match_col : option expr) (match_value : value) :
  s_get_col_func_of_max_per_day_for_value cls session col f start_ts end_ts
    match_col match_value
  = s_get_col_func_of_max_per_day_for_value cls session col f start_ts end_ts
      None VNone.
Proof. reflexivity. Qed.

(** The outer function of [get_col_func_of_max_per_day] is always [sum]. *)
Lemma get_col_func_of_max_per_day_is_sum (cls : DBObject) (db : list instance)
    (col : expr) (f : sqlfunc) (start_ts end_ts : value) :
  get_col_func_of_max_per_day cls db col f start_ts end_ts
  = get_col_func_of_max_per_day_for_value cls db col f_sum start_ts end_ts
      None VNone
  ∧ s_get_col_func_of_max_per_day cls {| rows := db; added := [] |} col f
      start_ts end_ts
    = s_get_col_func_of_max_per_day_for_value cls {| rows := db; added := [] |}
        col f_sum start_ts end_ts None VNone.
Proof. split; reflexivity. Qed.

(** C2, at the input of the claim: over the daily maxima [7] and [9] the
    [avg], [min] and [max] variants return the sum, [16], as the [sum]
    variant does, and not [8], [7] and [9]. *)
Theorem of_max_per_day_variants_return_sum :
  get_col_sum_of_max_per_day sample_cls daily_rows (Col "x")
    (VDateTime (march 1 0)) (VDateTime (march 3 0)) = Ok (RowValue (VInt 16))
  ∧ get_col_avg_of_max_per_day sample_cls daily_rows (Col "x")
      (VDateTime (march 1 0)) (VDateTime (march 3 0)) = Ok (RowValue (VInt 16))
  ∧ get_col_min_of_max_per_day sample_cls daily_rows (Col "x")
      (VDateTime (march 1 0)) (VDateTime (march 3 0)) = Ok (RowValue (VInt 16))
  ∧ get_col_max_of_max_per_day sample_cls daily_rows (Col "x")
      (VDateTime (march 1 0)) (VDateTime (march 3 0)) = Ok (RowValue (VInt 16)).
Proof. repeat split; vm_compute; reflexivity. Qed.

(** The path that takes the outer function as given does apply it. *)
Example of_max_per_day_for_value_applies_func :
  get_col_func_of_max_per_day_for_value sample_cls daily_rows (Col "x") f_avg
    (VDateTime (march 1 0)) (VDateTime (march 3 0)) None VNone
  = Ok (RowValue (VReal 8))
  ∧ get_col_func_of_max_per_day_for_value sample_cls daily_rows (Col "x") f_min
      (VDateTime (march 1 0)) (VDateTime (march 3 0)) None VNone
    = Ok (RowValue (VInt 7))
  ∧ get_col_func_of_max_per_day_for_value sample_cls daily_rows (Col "x") f_max
      (VDateTime (march 1 0)) (VDateTime (march 3 0)) None VNone
    = Ok (RowValue (VInt 9)).
Proof. repeat split; vm_compute; reflexivity. Qed.

(** C5, at a failing input: restricted to the rows of device 1 the daily
    maxima are [3] and [2] and their sum is [5]; the code returns [16], the
    sum over the rows of every device. *)
Theorem of_max_per_day_for_value_ignores_match :
  get_col_sum_of_max_per_day_for_value sample_cls daily_rows (Col "x")
    (Col "dev") (VInt 1) (VDateTime (march 1 0)) (VDateTime (march 3 0))
  = Ok (RowValue (VInt 16))
  ∧ get_col_sum_of_max_per_day_for_value sample_cls
      (filter (λ r, getattr r "dev" = VInt 1) daily_rows) (Col "x")
      (Col "dev") (VInt 1) (VDateTime (march 1 0)) (VDateTime (march 3 0))
    = Ok (RowValue (VInt 5)).
Proof. split; vm_compute; reflexivity. Qed.

(** ** The instance side of [during] *)

Lemma compare_values_antisym (a b : value) (c : comparison) :
  compare_values a b = Some c → compare_values b a = Some (CompOpp c).
Proof.
  destruct a, b; simpl; try discriminate; intros [= <-]; f_equal;
    first [ apply Z.compare_antisym
          | symmetry; apply Qcompare_antisym
          | apply String.compare_antisym ].
Qed.

(** X17: On an instance, [during] is the same half-open test: true at
    [start_ts], false at [end_ts]. *)
Lemma during_instance_half_open (cls : DBObject) (self : instance)
    (start_ts end_ts : value) (tc : string) :
  time_col_name cls = Some tc →
  compare_values start_ts end_ts = Some Lt →
  (getattr self tc = start_ts → during_instance cls self start_ts end_ts = Ok true)
  ∧ (getattr self tc = end_ts → during_instance cls self start_ts end_ts = Ok false).
Proof.
  intros Htc Hlt. unfold during_instance, py_compare. rewrite Htc. simpl. split.
  - intros ->. rewrite (compare_values_refl _ _ _ Hlt). simpl. rewrite Hlt.
    reflexivity.
  - intros ->. rewrite (compare_values_antisym _ _ _ Hlt). simpl.
    rewrite (compare_values_refl_r _ _ _ Hlt). reflexivity.
Qed.

(** ** The entry points that open their own session *)

Lemma managed_session_read {A} (db : list instance) (f : Session → result A) :
  fst <$> managed_session db (λ session, a ← f session; Ok (a, session))
  = f {| rows := db; added := [] |}.
Proof.
  unfold managed_session. simpl.
  destruct (f {| rows := db; added := [] |}); reflexivity.
Qed.

(** The scalar aggregates that take a store are the session-scoped ones on
    a fresh session over that store. *)
Lemma scalar_aggregate_db_entries (cls : DBObject) (db : list instance)
    (col : expr) (start_ts end_ts : value) (b : bool) :
  let session := {| rows := db; added := [] |} in
  get_col_avg cls db col start_ts end_ts b
    = s_get_col_avg cls session col start_ts end_ts b
  ∧ get_col_min cls db col start_ts end_ts b
    = s_get_col_min cls session col start_ts end_ts b
  ∧ get_col_max cls db col start_ts end_ts b
    = s_get_col_max cls session col start_ts end_ts b
  ∧ get_col_sum cls db col start_ts end_ts
    = s_get_col_sum cls session col start_ts end_ts.
Proof.
  intros session. repeat split.
  - apply (managed_session_read db (λ s, s_get_col_avg cls s col start_ts end_ts b)).
  - unfold get_col_min, s_get_col_min, managed_session. simpl. fold session.
    destruct (s_get_col_func_query cls session col f_min start_ts end_ts _);
      simpl; [|reflexivity].
    destruct (query_scalar a); reflexivity.
  - unfold get_col_max, s_get_col_max, managed_session. simpl. fold session.
    destruct (s_get_col_func_query cls session col f_max start_ts end_ts _);
      simpl; [|reflexivity].
    destruct (query_scalar a); reflexivity.
  - apply (managed_session_read db (λ s, s_get_col_sum cls s col start_ts end_ts)).
Qed.

Lemma get_time_col_func_session (cls : DBObject) (db : list instance)
    (col : expr) (f : sqlfunc) (start_ts end_ts : value) :
  get_time_col_func cls db col f start_ts end_ts
  = __get_time_col_func cls {| rows := db; added := [] |} col f start_ts end_ts.
Proof.
  apply (managed_session_read db
           (λ s, __get_time_col_func cls s col f start_ts end_ts)).
Qed.

(** ** The text of a time of day *)

Lemma pad2_all : forallb pad2_ok (seqZ 0 100) = true.
Proof. vm_compute. reflexivity. Qed.

Lemma pad2_shape (x : Z) :
  0 ≤ x < 100 →
  ∃ a b, pad2 x = String a (String b EmptyString)
         ∧ Ascii.eqb a ":" = false ∧ Ascii.eqb b ":" = false
         ∧ parse_field (String a (String b EmptyString)) = Some x.
Proof.
  intros Hx. pose proof pad2_all as Hall.
  rewrite forallb_forall in Hall.
  assert (pad2_ok x = true) as Hok.
  { apply Hall. apply list_elem_of_In, elem_of_seqZ. lia. }
  unfold pad2_ok in Hok.
  destruct (pad2 x) as [|a [|b [|]]] eqn:Hp; try discriminate.
  apply andb_true_iff in Hok as [Hok Hparse].
  apply andb_true_iff in Hok as [Ha Hb].
  exists a, b. repeat split.
  - destruct (Ascii.eqb a ":"); [discriminate|reflexivity].
  - destruct (Ascii.eqb b ":"); [discriminate|reflexivity].
  - apply bool_decide_eq_true in Hparse. exact Hparse.
Qed.

(** Reading back the text that [time(·, 'unixepoch')] writes gives the
    time of day of the seconds, for every number of seconds. *)
Lemma strptime_hms_text (n : Z) :
  strptime_HMS (hms_text n)
  = Ok {| hour := n mod 86400 / 3600;
          minute := n mod 86400 mod 3600 / 60;
          second := n mod 86400 mod 60 |}.
Proof.
  unfold hms_text. set (s := n mod 86400).
  assert (0 ≤ s < 86400) as Hs by (apply Z.mod_pos_bound; lia).
  assert (0 ≤ s / 3600 < 24) as Hh
    by (split; [apply Z.div_pos; lia|apply Z.div_lt_upper_bound; lia]).
  assert (0 ≤ s mod 3600 / 60 < 60) as Hm.
  { pose proof (Z.mod_pos_bound s 3600 ltac:(lia)).
    split; [apply Z.div_pos; lia|apply Z.div_lt_upper_bound; lia]. }
  assert (0 ≤ s mod 60 < 60) as Hsec by (apply Z.mod_pos_bound; lia).
  destruct (pad2_shape (s / 3600)) as (a1 & b1 & -> & Ha1 & Hb1 & Hp1); [lia|].
  destruct (pad2_shape (s mod 3600 / 60)) as (a2 & b2 & -> & Ha2 & Hb2 & Hp2); [lia|].
  destruct (pad2_shape (s mod 60)) as (a3 & b3 & -> & Ha3 & Hb3 & Hp3); [lia|].
  unfold strptime_HMS. cbv [String.append]. cbn [split_colon].
  rewrite Ha1. cbn [split_colon]. rewrite Hb1. cbn [split_colon].
  change (Ascii.eqb ":" ":") with true. cbn [split_colon].
  rewrite Ha2. cbn [split_colon]. rewrite Hb2. cbn [split_colon].
  change (Ascii.eqb ":" ":") with true. cbn [split_colon].
  rewrite Ha3. cbn [split_colon]. rewrite Hb3. cbn [split_colon].
  cbv [String.append].
  rewrite Hp1, Hp2, Hp3.
  replace (s / 3600 <? 24) with true by (symmetry; apply Z.ltb_lt; lia).
  replace (s mod 3600 / 60 <? 60) with true by (symmetry; apply Z.ltb_lt; lia).
  replace (s mod 60 <? 60) with true by (symmetry; apply Z.ltb_lt; lia).
  reflexivity.
Qed.

(** X16: With whole seconds out of the aggregate, [__get_time_col_func] returns
    their time of day; it does not raise. *)
Lemma get_time_col_func_whole_seconds (cls : DBObject) (session : Session)
    (col : expr) (f : sqlfunc) (start_ts end_ts : value) (n : Z) :
  (time_col_name cls = None → start_ts = VNone ∧ end_ts = VNone) →
  f ≠ f_distinct →
  aggregate f (time_inputs cls session col start_ts end_ts) = VInt n →
  __get_time_col_func cls session col f start_ts end_ts
  = Ok {| hour := n mod 86400 / 3600;
          minute := n mod 86400 mod 3600 / 60;
          second := n mod 86400 mod 60 |}.
Proof.
  intros Htc Hf Hagg. rewrite get_time_col_func_spec by assumption.
  rewrite Hagg. simpl. apply strptime_hms_text.
Qed.

(** ** The filter of [s_find_one] with a match-key set *)

Lemma find_one_fold_where (cls : DBObject) (values_dict : dict)
    (names : list string) (q : Query) :
  let step := λ (query : Query) (match_col_name : string),
    match values_dict !! match_col_name with
    | Some v => query_filter query (py_eq (get_col_by_name cls match_col_name) v)
    | None => query_filter query (py_eq (get_col_by_name cls match_col_name) VNone)
    end in
  q_where (foldl step q names) = q_where q ++ (match_crit cls values_dict <$> names)
  ∧ q_select (foldl step q names) = q_select q
  ∧ q_from (foldl step q names) = q_from q
  ∧ q_order_by (foldl step q names) = q_order_by q.
Proof.
  intros step. revert q. induction names as [|n names IH]; intros q.
  - simpl. rewrite app_nil_r. auto.
  - simpl. destruct (IH (step q n)) as (Hw & Hs & Hf & Ho).
    rewrite Hw, Hs, Hf, Ho. subst step. cbv beta. unfold match_crit at 2.
    destruct (values_dict !! n); simpl; rewrite <- app_assoc; auto.
Qed.

Lemma forallb_fmap {A B} (p : B → bool) (g : A → B) (l : list A) :
  forallb p (g <$> l) = forallb (λ x, p (g x)) l.
Proof.
  induction l as [|x l IH]; [reflexivity|].
  rewrite fmap_cons. cbn [forallb]. rewrite IH. reflexivity.
Qed.

(** X19: With a match-key set and the temporal value in [values_dict],
    [s_find_one] looks among the rows that agree with [values_dict] on every
    match key (a key left out must be null in the row) and whose temporal
    column equals the temporal value. *)
Lemma s_find_one_match_keys (cls : DBObject) (session : Session)
    (values_dict : dict) (names : list string) (tc : string) (t : value) :
  match_col_names cls = Some names → time_col_name cls = Some tc →
  values_dict !! tc = Some t →
  s_find_one cls session values_dict =
  match filter (λ r, forallb (λ n, holds (match_crit cls values_dict n) r) names
                     && holds (Cmp OpEq (Col tc) t) r = true) (rows session) with
  | [] => Ok None
  | [r] => Ok (Some r)
  | _ => Err MultipleResultsFound
  end.
Proof.
  intros Hm Htc Ht. unfold s_find_one, time_col, dict_get.
  rewrite Hm, Htc, Ht. cbn [mbind result_bind].
  match goal with
  | |- context [foldl ?f ?q names] =>
      destruct (find_one_fold_where cls values_dict names q) as (Hw & Hs & Hf & Ho);
      set (built := foldl f q names) in *
  end.
  unfold query_one_or_none, query_all, query_rows.
  cbn [q_select q_from q_where q_order_by query_filter].
  rewrite Hs, Hf, Ho, Hw. cbn [session_query q_select q_from q_where q_order_by app].
  match goal with
  | |- context [filter ?P (rows session)] =>
      rewrite (list_filter_iff P
                 (λ r, forallb (λ n, holds (match_crit cls values_dict n) r) names
                       && holds (Cmp OpEq (Col tc) t) r = true))
  end.
  - destruct (filter _ (rows session)) as [|r [|r' l]]; reflexivity.
  - intros r. unfold passes. rewrite forallb_app. cbn [forallb].
    rewrite andb_true_r.
    rewrite forallb_fmap. reflexivity.
Qed.

(** * Further properties *)

(** ** [update_from_dict] *)

(** X1: The merge rule, attribute by attribute: an entry of [values_dict] is
    written when its key names a column, unless [ignore_none] is set and the
    value is [None], or [ignore_zero] is set and the value is zero; every
    other attribute, among them every attribute whose key names no column,
    keeps the value it had. *)
Theorem update_from_dict_merge_rule (cls : DBObject) (self : instance)
    (values_dict : dict) (ignore_none ignore_zero : bool) (k : string) :
  update_from_dict cls self values_dict ignore_none ignore_zero !! k =
  match values_dict !! k with
  | Some v =>
      if bool_decide (k ∈ get_col_names cls)
         && negb (ignore_none && is_none v)
         && negb (ignore_zero && negb (py_ne_zero v))
      then Some v
      else self !! k
  | None => self !! k
  end.
Proof.
  rewrite update_from_dict_lookup. destruct (values_dict !! k) as [v|]; [|reflexivity].
  unfold merges.
  destruct ignore_none, ignore_zero, (is_none v), (py_ne_zero v),
    (bool_decide (k ∈ get_col_names cls)); reflexivity.
Qed.

Lemma update_from_dict_twice (cls : DBObject) (self : instance)
    (values_dict : dict) (ignore_none ignore_zero : bool) :
  update_from_dict cls
    (update_from_dict cls self values_dict ignore_none ignore_zero)
    values_dict ignore_none ignore_zero
  = update_from_dict cls self values_dict ignore_none ignore_zero.
Proof.
  apply map_eq. intros k. rewrite !update_from_dict_lookup.
  destruct (values_dict !! k) as [v|]; [|reflexivity].
  destruct (merges cls ignore_none ignore_zero k v); reflexivity.
Qed.

(** X2: Merging the same dictionary a second time changes nothing, and merging
    a dictionary into itself leaves it as it is. *)
Theorem update_from_dict_idempotent (cls : DBObject) (self : instance)
    (values_dict : dict) (ignore_none ignore_zero : bool) :
  update_from_dict cls
    (update_from_dict cls self values_dict ignore_none ignore_zero)
    values_dict ignore_none ignore_zero
  = update_from_dict cls self values_dict ignore_none ignore_zero
  ∧ update_from_dict cls values_dict values_dict ignore_none ignore_zero
    = values_dict.
Proof.
  split; [apply update_from_dict_twice|].
  apply map_eq. intros k. rewrite update_from_dict_lookup.
  destruct (values_dict !! k) as [v|]; [|reflexivity].
  destruct (merges cls ignore_none ignore_zero k v); reflexivity.
Qed.

(** ** Columns by name *)

Lemma find_name_Some (cols : list Column) (n : string) (col : Column) :
  List.find (λ col, bool_decide (name col = n)) cols = Some col → name col = n.
Proof.
  intros H. apply find_some in H as [_ H]. apply bool_decide_eq_true in H. exact H.
Qed.

Lemma get_col_by_name_cases (cls : DBObject) (n : string) :
  get_col_by_name cls n
  = if bool_decide (n ∈ get_col_names cls) then Some (Col n) else None.
Proof.
  unfold get_col_by_name, get_col_names.
  destruct (List.find _ (columns cls)) as [col|] eqn:Hfind; simpl.
  - rewrite (find_name_Some _ _ _ Hfind).
    rewrite bool_decide_eq_true_2; [reflexivity|].
    apply find_some in Hfind as [Hin Hn]. apply bool_decide_eq_true in Hn.
    apply list_elem_of_fmap. exists col. split; [congruence|].
    apply list_elem_of_In. exact Hin.
  - rewrite bool_decide_eq_false_2; [reflexivity|].
    intros Hin. apply list_elem_of_fmap in Hin as (col & Hn & Hcol).
    apply list_elem_of_In in Hcol.
    pose proof (find_none _ _ Hfind col Hcol) as Hf. simpl in Hf.
    apply bool_decide_eq_false in Hf. congruence.
Qed.

(** X3: [get_col_by_name] finds a column exactly for the names that
    [get_col_names] lists, and the column it returns has that name; for
    any other name it returns [None]. *)
Theorem get_col_by_name_names (cls : DBObject) (n : string) :
  (n ∈ get_col_names cls ↔ get_col_by_name cls n = Some (Col n))
  ∧ (n ∉ get_col_names cls ↔ get_col_by_name cls n = None).
Proof.
  rewrite get_col_by_name_cases.
  destruct (bool_decide (n ∈ get_col_names cls)) eqn:Hb.
  - apply bool_decide_eq_true in Hb. split; split; try tauto; try discriminate.
  - apply bool_decide_eq_false in Hb. split; split; try tauto; try discriminate.
Qed.

(** ** Setting up a record type *)

Lemma foldl_setup_match_col_names (cols : list Column) (cls : DBObject) :
  match_col_names (foldl setup_primary_key cls cols) = match_col_names cls.
Proof.
  induction cols as [|col cols IH] using rev_ind; [reflexivity|].
  rewrite foldl_snoc. rewrite (proj2 (setup_primary_key_columns _ _)). exact IH.
Qed.

Lemma setup_table_vars_columns (cls : DBObject) :
  columns (setup_table_vars cls) = columns cls
  ∧ match_col_names (setup_table_vars cls) = match_col_names cls.
Proof.
  unfold setup_table_vars.
  pose proof (foldl_setup_columns (columns cls) cls) as Hc.
  pose proof (foldl_setup_match_col_names (columns cls) cls) as Hm.
  destruct (time_col_name _); [auto|].
  destruct (List.find _ _); simpl; auto.
Qed.

Lemma DBObject_eq (a b : DBObject) :
  columns a = columns b → get_col_name a = get_col_name b →
  time_col_name a = time_col_name b → match_col_names a = match_col_names b →
  a = b.
Proof. destruct a, b; simpl; congruence. Qed.

Lemma setup_table_vars_idempotent (cls : DBObject) :
  setup_table_vars (setup_table_vars cls) = setup_table_vars cls.
Proof.
  destruct (setup_table_vars_columns cls) as [Hc Hm].
  destruct (setup_table_vars_columns (setup_table_vars cls)) as [Hc' Hm'].
  destruct (setup_table_vars_names cls) as [Hg Ht].
  destruct (setup_table_vars_names (setup_table_vars cls)) as [Hg' Ht'].
  apply DBObject_eq; try congruence.
  - rewrite Hg', Hc, Hg. destruct (last_col primary_key (columns cls)); reflexivity.
  - rewrite Ht', Hc, Ht.
    destruct (last_col is_time_key (columns cls)); [reflexivity|].
    destruct (time_col_name cls); [reflexivity|].
    destruct (List.find _ (columns cls)); reflexivity.
Qed.

(** X4: Discovery is memoized: setting up a record type again changes
    nothing, whether or not a temporal column was found the first time. *)
Theorem setup_idempotent (cls : DBObject) : setup (setup cls) = setup cls.
Proof.
  unfold setup at 2 3. destruct (time_col_name cls) as [n|] eqn:Hn.
  - unfold setup. rewrite Hn. reflexivity.
  - unfold setup.
    destruct (time_col_name (setup_table_vars cls)); [reflexivity|].
    apply setup_table_vars_idempotent.
Qed.

Lemma last_col_Some (p : Column → bool) (cols : list Column) (col : Column) :
  last_col p cols = Some col → col ∈ cols ∧ p col = true.
Proof.
  unfold last_col. intros H. apply last_Some in H as [l H].
  assert (col ∈ filter (λ col, p col = true) cols) as Hin.
  { rewrite H. apply elem_of_app. right. apply list_elem_of_here. }
  apply list_elem_of_filter in Hin. tauto.
Qed.

Lemma last_col_None (p : Column → bool) (cols : list Column) :
  last_col p cols = None ↔ ∀ col, col ∈ cols → p col = false.
Proof.
  unfold last_col. rewrite last_None. split.
  - intros H col Hin. destruct (p col) eqn:Hp; [|reflexivity].
    assert (col ∈ filter (λ col, p col = true) cols) as Hc
      by (apply list_elem_of_filter; auto).
    rewrite H in Hc. inversion Hc.
  - intros H. apply elem_of_nil_inv. intros col Hin.
    apply list_elem_of_filter in Hin as [Hp Hin]. rewrite (H col Hin) in Hp.
    discriminate.
Qed.

(** X5: On a record type that declares neither name, [setup_table_vars] picks
    as identity only the name of a primary-key column, and as temporal
    column only the name of a date, time or date-time column; it leaves the
    identity unset exactly when no column is a primary key, and the temporal
    column unset exactly when no column has such a type. *)
Theorem setup_table_vars_sound (cls : DBObject) :
  get_col_name cls = None → time_col_name cls = None →
  (∀ n, get_col_name (setup_table_vars cls) = Some n →
        ∃ col, col ∈ columns cls ∧ name col = n ∧ primary_key col = true)
  ∧ (get_col_name (setup_table_vars cls) = None ↔
     ∀ col, col ∈ columns cls → primary_key col = false)
  ∧ (∀ n, time_col_name (setup_table_vars cls) = Some n →
          ∃ col, col ∈ columns cls ∧ name col = n ∧ is_time_type (type col) = true)
  ∧ (time_col_name (setup_table_vars cls) = None ↔
     ∀ col, col ∈ columns cls → is_time_type (type col) = false).
Proof.
  intros Hget Htime. destruct (setup_table_vars_names cls) as [-> ->].
  rewrite Hget, Htime. repeat split.
  - intros n Hn. destruct (last_col primary_key (columns cls)) as [col|] eqn:Hl;
      [|discriminate].
    apply last_col_Some in Hl as [Hin Hp]. exists col. split; [exact Hin|].
    split; [congruence|exact Hp].
  - intros H. apply last_col_None.
    destruct (last_col primary_key (columns cls)); [discriminate|reflexivity].
  - intros H. apply last_col_None in H. rewrite H. reflexivity.
  - intros n Hn.
    destruct (last_col is_time_key (columns cls)) as [col|] eqn:Hl.
    + apply last_col_Some in Hl as [Hin Hp]. unfold is_time_key in Hp.
      apply andb_true_iff in Hp as [_ Hp].
      exists col. split; [exact Hin|]. split; [congruence|exact Hp].
    + destruct (List.find _ (columns cls)) as [col|] eqn:Hf; [|discriminate].
      apply find_some in Hf as [Hin Hp]. exists col.
      split; [apply list_elem_of_In; exact Hin|]. split; [simpl in Hn; congruence|exact Hp].
  - intros H col Hin.
    destruct (last_col is_time_key (columns cls)) as [k|] eqn:Hl; [discriminate|].
    destruct (List.find _ (columns cls)) as [c|] eqn:Hf; [discriminate|].
    apply list_elem_of_In in Hin. exact (find_none _ _ Hf col Hin).
  - intros H.
    assert (last_col is_time_key (columns cls) = None) as ->.
    { apply last_col_None. intros col Hin. unfold is_time_key.
      rewrite (H col Hin). apply andb_false_r. }
    destruct (List.find _ (columns cls)) as [c|] eqn:Hf; [|reflexivity].
    apply find_some in Hf as [Hin Hp]. apply list_elem_of_In in Hin.
    rewrite (H c Hin) in Hp. discriminate.
Qed.

Lemma setup_table_vars_sound_witness :
  (∀ n, get_col_name (setup_table_vars two_key_cls) = Some n →
        ∃ col, col ∈ columns two_key_cls ∧ name col = n ∧ primary_key col = true)
  ∧ time_col_name (setup_table_vars two_key_cls) ≠ None.
Proof.
  destruct (setup_table_vars_sound two_key_cls) as (Hid & _ & _ & Hnone).
  - reflexivity.
  - reflexivity.
  - split; [exact Hid|]. vm_compute. discriminate.
Defined.

(** ** Windows of [s_query] *)

Lemma s_query_no_time_col_witness :
  s_query upsert_cls {| rows := []; added := [] |} Entity None
    (VDateTime (march 1 0)) VNone None = Err AttributeError.
Proof.
  apply s_query_no_time_col.
  - reflexivity.
  - left. discriminate.
Defined.

(** X7: With one bound only the window is open on the other side, and with no
    bound every row of the table is in the query. *)
Theorem s_query_open_ended (cls : DBObject) (session : Session)
    (sel : selectable) (order_by : option expr) (start_ts end_ts : value)
    (tc : string) :
  time_col_name cls = Some tc → start_ts ≠ VNone → end_ts ≠ VNone →
  (∃ q, s_query cls session sel order_by start_ts VNone None = Ok q
        ∧ ∀ r, r ∈ query_rows q ↔
               r ∈ rows session
               ∧ (compare_values (getattr r tc) start_ts = Some Eq
                  ∨ compare_values (getattr r tc) start_ts = Some Gt))
  ∧ (∃ q, s_query cls session sel order_by VNone end_ts None = Ok q
          ∧ ∀ r, r ∈ query_rows q ↔
                 r ∈ rows session
                 ∧ compare_values (getattr r tc) end_ts = Some Lt)
  ∧ (∃ q, s_query cls session sel order_by VNone VNone None = Ok q
          ∧ ∀ r, r ∈ query_rows q ↔ r ∈ rows session).
Proof.
  intros Htc Hs He.
  assert (time_col_name cls = None → False) as Hno by (rewrite Htc; discriminate).
  assert (is_none start_ts = false) as Hsn by (destruct start_ts; simpl; congruence).
  assert (is_none end_ts = false) as Hen by (destruct end_ts; simpl; congruence).
  split; [|split].
  - destruct (s_query_spec cls session sel order_by start_ts VNone None)
      as (q & Hq & _ & Hfrom & _ & _ & Hpass); [intros H; destruct (Hno H)|].
    exists q. split; [exact Hq|]. intros r.
    rewrite elem_of_query_rows, Hfrom, Hpass, Htc. unfold in_window.
    rewrite Hsn. cbn [is_none orb from_option]. rewrite !andb_true_r, holds_ge.
    reflexivity.
  - destruct (s_query_spec cls session sel order_by VNone end_ts None)
      as (q & Hq & _ & Hfrom & _ & _ & Hpass); [intros H; destruct (Hno H)|].
    exists q. split; [exact Hq|]. intros r.
    rewrite elem_of_query_rows, Hfrom, Hpass, Htc. unfold in_window.
    rewrite Hen. cbn [is_none orb from_option].
    rewrite !andb_true_r, andb_true_l, holds_lt. reflexivity.
  - destruct (s_query_spec cls session sel order_by VNone VNone None)
      as (q & Hq & _ & Hfrom & _ & _ & Hpass); [intros H; destruct (Hno H)|].
    exists q. split; [exact Hq|]. intros r.
    rewrite elem_of_query_rows, Hfrom, Hpass, Htc. simpl. tauto.
Qed.

Lemma s_query_open_ended_witness :
  ∃ q, s_query sample_cls {| rows := half_open_rows; added := [] |} Entity None
         (VDateTime (march 1 12)) VNone None = Ok q
       ∧ sample_row (march 2 0) 3 1 ∈ query_rows q
       ∧ sample_row (march 1 0) 1 1 ∉ query_rows q.
Proof.
  destruct (s_query_open_ended sample_cls {| rows := half_open_rows; added := [] |}
              Entity None (VDateTime (march 1 12)) (VDateTime (march 2 0)) "ts")
    as ((q & Hq & Hrows) & _).
  - reflexivity.
  - discriminate.
  - discriminate.
  - exists q. split; [exact Hq|]. split.
    + apply Hrows. split; [|right; reflexivity].
      apply list_elem_of_further, list_elem_of_further, list_elem_of_here.
    + intros Hin. apply Hrows in Hin as [_ [H|H]]; vm_compute in H; discriminate H.
Defined.

(** ** Records of a period *)


Lemma s_get_for_period_entities (cls : DBObject) (session : Session)
    (start_ts end_ts : value) (not_none_col : option expr) (tc : string) :
  time_col_name cls = Some tc →
  s_get_for_period cls session start_ts end_ts None not_none_col
  = Ok (RowEntity
          <$> merge_sort (order_le (Col tc))
                (filter (λ r, in_period tc start_ts end_ts not_none_col r = true)
                   (rows session))).
Proof.
  intros Htc. unfold s_get_for_period, time_col. rewrite Htc. cbn [mbind result_bind].
  destruct (s_query_spec cls session Entity (Some (Col tc)) start_ts end_ts None)
    as (q & Hq & Hsel & Hfrom & Hord & Hgrp & Hpass).
  { rewrite Htc. discriminate. }
  simpl default. rewrite Hq. cbn [mbind result_bind]. f_equal.
  rewrite Htc in Hpass.
  destruct not_none_col as [c|].
  - unfold query_all, query_rows.
    cbn [q_select q_from q_where q_order_by query_filter].
    rewrite Hsel, Hord, Hfrom. do 2 f_equal.
    apply list_filter_iff. intros r. rewrite passes_snoc, Hpass.
    unfold in_period. simpl. rewrite andb_true_r. reflexivity.
  - unfold query_all, query_rows. rewrite Hsel, Hord, Hfrom. do 2 f_equal.
    apply list_filter_iff. intros r. rewrite Hpass. unfold in_period. reflexivity.
Qed.



Lemma in_period_datetime (tc : string) (a b : Z) (r : instance) :
  in_period tc (VDateTime a) (VDateTime b) None r = true ↔
  ∃ ts, getattr r tc = VDateTime ts ∧ a ≤ ts < b.
Proof.
  unfold in_period, in_window. simpl. rewrite andb_true_r.
  destruct (getattr r tc) as [| | | | |ts] eqn:Hg; simpl;
    try (split; [discriminate|intros (ts' & H & _); discriminate H]).
  split.
  - intros H. apply andb_true_iff in H as [H1 H2]. exists ts. split; [reflexivity|].
    destruct (Z.compare_spec ts a), (Z.compare_spec ts b); simpl in *;
      try discriminate; lia.
  - intros (ts' & [= <-] & Ha & Hb).
    destruct (Z.compare_spec ts a), (Z.compare_spec ts b); simpl; try reflexivity; lia.
Qed.



(** ** Counting rows *)

Lemma s_row_count_for_period_eq (cls : DBObject) (session : Session)
    (start_ts end_ts : Z) (tc : string) :
  time_col_name cls = Some tc →
  s_row_count_for_period cls session start_ts end_ts
  = Ok (length (filter (λ r, in_period tc (VDateTime start_ts) (VDateTime end_ts)
                               None r = true) (rows session))).
Proof.
  intros Htc. unfold s_row_count_for_period, time_col. rewrite Htc.
  cbn [mbind result_bind]. f_equal.
  unfold query_count, query_all, query_rows.
  cbn [q_select q_from q_where q_order_by query_filter session_query app].
  rewrite length_fmap. f_equal. apply list_filter_iff. intros r.
  unfold passes, in_period, in_window. cbn [forallb is_none orb from_option].
  rewrite !andb_true_r. reflexivity.
Qed.

Lemma length_filter_split {A} (p p1 p2 : A → bool) (l : list A) :
  (∀ x, p x = p1 x || p2 x) → (∀ x, p1 x && p2 x = false) →
  length (filter (λ x, p x = true) l)
  = (length (filter (λ x, p1 x = true) l) + length (filter (λ x, p2 x = true) l))%nat.
Proof.
  intros Hp Hd. induction l as [|x l IH]; [reflexivity|].
  specialize (Hp x). specialize (Hd x).
  destruct (p x) eqn:Ex, (p1 x) eqn:E1, (p2 x) eqn:E2; simpl in Hp, Hd;
    try discriminate;
    repeat first [ rewrite filter_cons_True by assumption
                 | rewrite filter_cons_False by congruence ];
    simpl; lia.
Qed.

(** X10: Adjacent periods count every row once: the rows of [a, b) and of
    [b, c) add up to the rows of [a, c). *)
Theorem row_count_for_period_additive (cls : DBObject) (session : Session)
    (a b c : Z) (tc : string) :
  time_col_name cls = Some tc → a ≤ b ≤ c →
  ∃ n1 n2, s_row_count_for_period cls session a b = Ok n1
           ∧ s_row_count_for_period cls session b c = Ok n2
           ∧ s_row_count_for_period cls session a c = Ok (n1 + n2)%nat.
Proof.
  intros Htc Habc. rewrite !(s_row_count_for_period_eq _ _ _ _ tc Htc).
  eexists _, _. split; [reflexivity|]. split; [reflexivity|]. f_equal.
  apply length_filter_split; intros r.
  - apply eq_true_iff_eq. rewrite orb_true_iff, !in_period_datetime. split.
    + intros (ts & Hts & Hb). destruct (Z_lt_ge_dec ts b).
      * left. exists ts. split; [exact Hts|lia].
      * right. exists ts. split; [exact Hts|lia].
    + intros [(ts & Hts & Hb)|(ts & Hts & Hb)]; exists ts; (split; [exact Hts|lia]).
  - apply not_true_is_false. rewrite andb_true_iff, !in_period_datetime.
    intros [(ts & Hts & Hb) (ts' & Hts' & Hb')]. rewrite Hts in Hts'.
    injection Hts' as <-. lia.
Qed.

Lemma row_count_for_period_additive_witness :
  s_row_count_for_period sample_cls {| rows := half_open_rows; added := [] |}
    (march 1 0) (march 2 0) = Ok 2%nat
  ∧ s_row_count_for_period sample_cls {| rows := half_open_rows; added := [] |}
      (march 2 0) (march 3 0) = Ok 1%nat
  ∧ s_row_count_for_period sample_cls {| rows := half_open_rows; added := [] |}
      (march 1 0) (march 3 0) = Ok 3%nat.
Proof.
  destruct (row_count_for_period_additive sample_cls
              {| rows := half_open_rows; added := [] |}
              (march 1 0) (march 2 0) (march 3 0) "ts")
    as (n1 & n2 & H1 & H2 & H3).
  - reflexivity.
  - vm_compute. split; discriminate.
  - rewrite H3.
    assert (n1 = 2%nat) as -> by (vm_compute in H1; congruence).
    assert (n2 = 1%nat) as -> by (vm_compute in H2; congruence).
    repeat split; vm_compute; reflexivity.
Defined.

(** X11: The count of a day is the number of records that [get_for_day]
    returns for it. *)
Theorem row_count_for_day_get_for_day (cls : DBObject) (db : list instance)
    (day_date : Z) :
  row_count_for_day cls db day_date
  = length <$> get_for_day cls db None day_date None.
Proof.
  unfold row_count_for_day, row_count_for_period, get_for_day, get_for_period.
  rewrite (managed_session_read db (λ s, s_row_count_for_period cls s _ _)).
  rewrite (managed_session_read db (λ s, s_get_for_period cls s _ _ None None)).
  destruct (time_col_name cls) as [tc|] eqn:Htc.
  - rewrite (s_row_count_for_period_eq _ _ _ _ tc Htc).
    rewrite (s_get_for_period_entities _ _ _ _ _ tc Htc).
    cbn [fmap result_fmap]. f_equal.
    rewrite length_fmap. symmetry. apply Permutation_length, merge_sort_Permutation.
  - unfold s_row_count_for_period, s_get_for_period, time_col. rewrite Htc.
    reflexivity.
Qed.

(** ** [get_col_values] *)

Lemma get_col_values_eq (cls : DBObject) (session : Session) (c : string)
    (match_col : expr) (match_value : value) (start_ts end_ts : value)
    (flag : bool) (tc : string) :
  time_col_name cls = Some tc →
  get_col_values cls (rows session) (Col c) match_col match_value
    start_ts end_ts (Some flag)
  = Ok ((λ r, RowValue (getattr r c))
          <$> merge_sort (order_le (Col tc))
                (filter (λ r, in_window (Some tc) start_ts end_ts r && flag
                              && holds (Cmp OpEq match_col match_value) r = true)
                   (rows session))).
Proof.
  intros Htc. unfold get_col_values, managed_session, time_col. rewrite Htc.
  cbn [mbind result_bind default from_option id].
  destruct (s_query_spec cls {| rows := rows session; added := [] |}
              (Select (Col c)) (Some (Col tc)) start_ts end_ts
              (Some (py_bool flag)))
    as (q & Hq & Hsel & Hfrom & Hord & Hgrp & Hpass).
  { rewrite Htc. discriminate. }
  rewrite Hq. cbn [mbind result_bind fmap result_fmap fst]. f_equal.
  unfold query_all, query_rows.
  cbn [q_select q_from q_where q_order_by q_group_by query_filter].
  rewrite Hsel, Hgrp, Hord, Hfrom. cbn [is_aggregate is_distinct rows].
  rewrite <- list_fmap_compose. f_equal. f_equal.
  apply list_filter_iff. intros r. rewrite passes_snoc, Hpass, Htc.
  cbn [from_option]. unfold positive, py_bool.
  destruct flag; reflexivity.
Qed.

(** X12: [get_col_values] passes its flag where [s_query] expects the positivity
    column: called without the flag, or with [False], it returns no value
    at all; called with [True] it returns the value of every matching row
    of the window, a value of zero or less included. *)
Theorem get_col_values_flag (cls : DBObject) (db : list instance) (c : string)
    (match_col : expr) (match_value : value) (start_ts end_ts : value)
    (tc : string) :
  time_col_name cls = Some tc →
  get_col_values cls db (Col c) match_col match_value start_ts end_ts None = Ok []
  ∧ get_col_values cls db (Col c) match_col match_value start_ts end_ts (Some false)
    = Ok []
  ∧ ∃ l, get_col_values cls db (Col c) match_col match_value start_ts end_ts
           (Some true) = Ok ((λ r, RowValue (getattr r c)) <$> l)
         ∧ l ≡ₚ filter (λ r, in_window (Some tc) start_ts end_ts r
                              && holds (Cmp OpEq match_col match_value) r = true) db.
Proof.
  intros Htc.
  pose proof (λ flag, get_col_values_eq cls {| rows := db; added := [] |} c
                        match_col match_value start_ts end_ts flag tc Htc) as H.
  cbn [rows] in H.
  assert (get_col_values cls db (Col c) match_col match_value start_ts end_ts
            (Some false) = Ok []) as Hfalse.
  { rewrite H.
    rewrite (list_filter_iff _ (λ _, False)).
    - assert (filter (λ _ : instance, False) db = []) as ->.
      { apply elem_of_nil_inv. intros r Hr. apply list_elem_of_filter in Hr as [[] _]. }
      reflexivity.
    - intros r. rewrite andb_false_r. simpl. split; [discriminate|tauto]. }
  split; [exact Hfalse|]. split; [exact Hfalse|].
  eexists. split; [apply H|].
  rewrite merge_sort_Permutation.
  rewrite (list_filter_iff _ (λ r, in_window (Some tc) start_ts end_ts r
                                   && holds (Cmp OpEq match_col match_value) r = true));
    [reflexivity|].
  intros r. rewrite andb_true_r. reflexivity.
Qed.

Lemma get_col_values_flag_witness :
  get_col_values sample_cls (rows positivity_session) (Col "x") (Col "dev") (VInt 1)
    (VDateTime (march 1 0)) (VDateTime (march 3 0)) None = Ok []
  ∧ get_col_values sample_cls (rows positivity_session) (Col "x") (Col "dev") (VInt 1)
      (VDateTime (march 1 0)) (VDateTime (march 3 0)) (Some true)
    = Ok [RowValue (VInt (-1)); RowValue (VInt 5)].
Proof.
  destruct (get_col_values_flag sample_cls (rows positivity_session) "x" (Col "dev")
              (VInt 1) (VDateTime (march 1 0)) (VDateTime (march 3 0)) "ts")
    as (Hnone & _ & _).
  - reflexivity.
  - split; [exact Hnone|]. vm_compute. reflexivity.
Defined.

(** ** Aggregates of the rows with a given value *)

(** X13: A value-matched aggregate ranges over the rows that contribute to the
    plain aggregate and whose [match_col] equals [match_value] (is null,
    for [None]); the entry point that opens its own session agrees. *)
Theorem get_col_func_for_value_rows (cls : DBObject) (session : Session)
    (col : expr) (f : sqlfunc) (match_col : expr) (match_value : value)
    (start_ts end_ts : value) (b : bool) :
  (time_col_name cls = None → start_ts = VNone ∧ end_ts = VNone) →
  f ≠ f_distinct →
  let inputs :=
    eval col <$> filter (λ r, holds (Cmp OpEq match_col match_value) r = true)
                   (contributing cls session col start_ts end_ts b) in
  _get_col_func_for_value cls session col f match_col match_value
    start_ts end_ts b = Ok (RowValue (aggregate f inputs))
  ∧ get_col_func_for_value cls (rows session) col f match_col match_value
      start_ts end_ts b = Ok (RowValue (aggregate f inputs)).
Proof.
  intros Htc Hf inputs.
  assert (∀ s, rows s = rows session →
            ∃ q, s_query cls s (Select (Func f col)) None start_ts end_ts
                   (if b then Some col else None) = Ok q
                 ∧ query_scalar (query_filter q (Cmp OpEq match_col match_value))
                   = Ok (RowValue (aggregate f inputs))) as Hq.
  { intros s Hs.
    destruct (s_query_spec cls s (Select (Func f col)) None start_ts end_ts
                (if b then Some col else None) Htc)
      as (q & Hq & Hsel & Hfrom & Hord & Hgrp & Hpass).
    exists q. split; [exact Hq|]. apply query_scalar_single.
    unfold query_all, query_rows.
    cbn [q_select q_from q_where q_order_by q_group_by query_filter].
    rewrite Hsel, Hgrp, Hord, Hfrom, Hs. unfold is_aggregate.
    rewrite (bool_decide_eq_true_2 _ Hf). cbn [orb eval_group]. do 3 f_equal.
    unfold inputs, contributing. rewrite list_filter_filter.
    f_equal. apply list_filter_iff. intros r. rewrite passes_snoc, Hpass.
    rewrite andb_true_iff. destruct b; simpl; tauto. }
  split.
  - unfold _get_col_func_for_value.
    destruct (Hq session eq_refl) as (q & -> & Hs). exact Hs.
  - unfold get_col_func_for_value, managed_session.
    destruct (Hq {| rows := rows session; added := [] |} eq_refl) as (q & -> & Hs).
    cbn [mbind result_bind]. rewrite Hs. reflexivity.
Qed.

Lemma get_col_func_for_value_rows_witness :
  s_get_col_max_for_value sample_cls positivity_session (Col "x") (Col "dev")
    (VInt 1) (VDateTime (march 1 0)) (VDateTime (march 3 0)) false
  = Ok (RowValue (VInt 5)).
Proof.
  destruct (get_col_func_for_value_rows sample_cls positivity_session (Col "x")
              f_max (Col "dev") (VInt 1) (VDateTime (march 1 0))
              (VDateTime (march 3 0)) false) as [H _].
  - intros H. vm_compute in H. discriminate H.
  - discriminate.
  - unfold s_get_col_max_for_value. rewrite H. vm_compute. reflexivity.
Defined.

(** ** Matching on given columns *)

Lemma foldl_filter_where {A} (crit_of : A → crit) (items : list A) (q : Query) :
  let built := foldl (λ query item, query_filter query (crit_of item)) q items in
  q_where built = q_where q ++ (crit_of <$> items)
  ∧ q_select built = q_select q
  ∧ q_from built = q_from q
  ∧ q_order_by built = q_order_by q.
Proof.
  revert q. induction items as [|x items IH]; intros q.
  - simpl. rewrite app_nil_r. auto.
  - simpl. destruct (IH (query_filter q (crit_of x))) as (Hw & Hs & Hf & Ho).
    simpl in *. rewrite Hw, Hs, Hf, Ho. simpl. rewrite <- app_assoc. auto.
Qed.

(** X14: [s_find_id] by the number of rows that agree with every item of
    [match_dict]: none, and reading [id] of [None] raises [AttributeError];
    one, and its [id] is returned; more, and the query raises
    [MultipleResultsFound]. *)
Theorem s_find_id_cases (cls : DBObject) (session : Session)
    (match_dict : list (expr * value)) :
  s_find_id cls session match_dict =
  match filter (λ r, forallb (λ item, holds (Cmp OpEq item.1 item.2) r) match_dict
                     = true) (rows session) with
  | [] => Err AttributeError
  | [r] => if bool_decide ("id" ∈ get_col_names cls) then Ok (getattr r "id")
           else Err AttributeError
  | _ => Err MultipleResultsFound
  end.
Proof.
  unfold s_find_id, s_find_match.
  destruct (foldl_filter_where (λ item : expr * value, Cmp OpEq item.1 item.2)
              match_dict (session_query session Entity)) as (Hw & Hs & Hf & Ho).
  unfold query_one_or_none, query_all, query_rows. rewrite Hs, Hf, Ho, Hw.
  cbn [session_query q_select q_from q_where q_order_by app].
  rewrite (list_filter_iff _
             (λ r, forallb (λ item : expr * value, holds (Cmp OpEq item.1 item.2) r)
                     match_dict = true)).
  - destruct (filter _ (rows session)) as [|r [|r' l]]; reflexivity.
  - intros r. unfold passes. rewrite forallb_fmap. reflexivity.
Qed.

(** ** Periodic statistics *)





(** ** Witnesses *)

Lemma get_time_col_func_whole_seconds_witness :
  s_get_time_col_sum sample_cls
    {| rows := [ time_row (march 1 8) 46800; time_row (march 1 9) 43200 ];
       added := [] |}
    (Col "t") VNone VNone
  = Ok {| hour := 1; minute := 0; second := 0 |}.
Proof.
  apply (get_time_col_func_whole_seconds sample_cls _ (Col "t") f_sum VNone VNone
           90000).
  - intros H. vm_compute in H. discriminate H.
  - discriminate.
  - vm_compute. reflexivity.
Defined.

Lemma during_instance_half_open_witness :
  during_instance sample_cls (sample_row (march 1 0) 1 1)
    (VDateTime (march 1 0)) (VDateTime (march 2 0)) = Ok true
  ∧ during_instance sample_cls (sample_row (march 2 0) 3 1)
      (VDateTime (march 1 0)) (VDateTime (march 2 0)) = Ok false.
Proof.
  split.
  - apply (during_instance_half_open sample_cls _ _ _ "ts"); reflexivity.
  - apply (during_instance_half_open sample_cls _ _ _ "ts"); reflexivity.
Defined.

Lemma s_get_col_func_of_max_per_day_for_value_spec_witness :
  s_get_col_func_of_max_per_day_for_value sample_cls
    {| rows := daily_rows; added := [] |} (Col "x") f_avg
    (VDateTime (march 1 0)) (VDateTime (march 3 0)) None VNone
  = Ok (RowValue (VReal 8)).
Proof.
  rewrite (s_get_col_func_of_max_per_day_for_value_spec sample_cls _ (Col "x")
             f_avg _ _ None VNone "ts").
  - vm_compute. reflexivity.
  - reflexivity.
  - discriminate.
  - discriminate.
  - discriminate.
Defined.

Lemma s_find_one_match_keys_witness :
  s_find_one match_cls match_session
    (<["a" := VInt 1]> {[ "ts" := VDateTime (march 1 8) ]})
  = Ok (Some match_row_null).
Proof.
  rewrite (s_find_one_match_keys match_cls match_session _ ["a"; "b"] "ts"
             (VDateTime (march 1 8))).
  - vm_compute. reflexivity.
  - reflexivity.
  - reflexivity.
  - reflexivity.
Defined.

(** ** Upserts, applied twice *)

Lemma s_find_one_by_crits (cls : DBObject) (session : Session) (values_dict : dict) :
  s_find_one cls session values_dict =
  cs ← find_one_crits cls values_dict;
  one_of (filter (λ r, passes cs r = true) (rows session)).
Proof.
  unfold s_find_one, find_one_crits.
  assert (∀ q, (r ← query_one_or_none q; Ok (r ≫= row_entity)) =
               one_of (filter (λ r, passes (q_where q) r = true) (q_from q)) →
               True) as _ by auto.
  destruct (match_col_names cls) as [names|] eqn:Hm.
  - cbn [mbind result_bind].
    destruct (time_col cls) as [tc|e]; [|reflexivity]. cbn [mbind result_bind].
    destruct (dict_get values_dict (time_col_name cls)) as [v|e]; [|reflexivity].
    cbn [mbind result_bind].
    match goal with
    | |- context [foldl ?f ?q names] =>
        destruct (find_one_fold_where cls values_dict names q) as (Hw & Hs & Hf & Ho);
        set (built := foldl f q names) in *
    end.
    unfold query_one_or_none, query_all, query_rows.
    cbn [q_select q_from q_where q_order_by query_filter].
    rewrite Hs, Hf, Ho, Hw. cbn [session_query q_select q_from q_where q_order_by app].
    destruct (filter _ (rows session)) as [|r [|r' l]]; reflexivity.
  - destruct (time_col cls) as [tc|e]; [|reflexivity]. cbn [mbind result_bind].
    destruct (dict_get values_dict (time_col_name cls)) as [v|e]; [|reflexivity].
    cbn [mbind result_bind].
    unfold query_one_or_none, query_all, query_rows.
    cbn [q_select q_from q_where q_order_by query_filter session_query app].
    destruct (filter _ (rows session)) as [|r [|r' l]]; reflexivity.
Qed.

Lemma find_one_crits_form (cls : DBObject) (values_dict : dict) (cs : list crit) :
  find_one_crits cls values_dict = Ok cs →
  Forall (λ c, key_crit values_dict c ∨ ∃ b, c = Const b) cs
  ∧ (match_cols_are_columns cls → Forall (key_crit values_dict) cs).
Proof.
  unfold find_one_crits, time_col, dict_get.
  destruct (time_col_name cls) as [tc|]; [|discriminate]. cbn [mbind result_bind].
  destruct (values_dict !! tc) as [v|] eqn:Hv; [|discriminate].
  cbn [mbind result_bind]. intros [= <-].
  assert (key_crit values_dict (Cmp OpEq (Col tc) v)) as Htime.
  { exists tc. rewrite Hv. reflexivity. }
  destruct (match_col_names cls) as [names|] eqn:Hm.
  - split.
    + apply Forall_app. split; [|repeat constructor; auto].
      apply Forall_fmap, Forall_forall. intros n _. unfold compose, match_crit.
      rewrite get_col_by_name_cases.
      destruct (bool_decide _); simpl; [left; exists n; reflexivity|right; eauto].
    + intros Hcols. apply Forall_app. split; [|repeat constructor; auto].
      apply Forall_fmap, Forall_forall. intros n Hn. unfold compose, match_crit.
      rewrite get_col_by_name_cases.
      rewrite (bool_decide_eq_true_2 _ (Hcols names Hm n Hn)).
      exists n. reflexivity.
  - split; [|intros _]; repeat constructor; auto.
Qed.

Lemma compare_values_self (v : value) : v ≠ VNone → compare_values v v = Some Eq.
Proof.
  destruct v; simpl; try congruence; intros _;
    rewrite ?Z.compare_refl, ?Qcompare_refl, ?string_compare_refl; reflexivity.
Qed.

Lemma holds_eq_self (n : string) (r : instance) :
  holds (Cmp OpEq (Col n) (getattr r n)) r = true.
Proof.
  simpl. destruct (getattr r n) eqn:Hg; simpl; rewrite ?Hg; simpl;
    rewrite ?Z.compare_refl, ?Qcompare_refl, ?string_compare_refl; reflexivity.
Qed.

Lemma holds_col_ext (op : cmp_op) (n : string) (v : value) (r r' : instance) :
  getattr r n = getattr r' n →
  holds (Cmp op (Col n) v) r = holds (Cmp op (Col n) v) r'.
Proof. intros H. simpl. rewrite H. reflexivity. Qed.

(** A criterion on the dictionary's own value still holds after the
    dictionary was merged into the row. *)
Lemma holds_key_crit_update (cls : DBObject) (values_dict : dict) (c : crit)
    (r : instance) (ignore_none ignore_zero : bool) :
  key_crit values_dict c ∨ (∃ b, c = Const b) →
  holds c r = true →
  holds c (update_from_dict cls r values_dict ignore_none ignore_zero) = true.
Proof.
  intros [[n ->]|[b ->]] Hr; [|exact Hr].
  set (r' := update_from_dict cls r values_dict ignore_none ignore_zero).
  assert (r' !! n = r !! n ∨ r' !! n = values_dict !! n ∧ is_Some (values_dict !! n))
    as [Hsame|[Hnew Hsome]].
  { unfold r'. rewrite update_from_dict_lookup.
    destruct (values_dict !! n) as [v|]; [|auto].
    destruct (merges cls ignore_none ignore_zero n v); eauto. }
  - rewrite <- Hr. apply holds_col_ext. unfold getattr. rewrite Hsame. reflexivity.
  - replace (default VNone (values_dict !! n)) with (getattr r' n)
      by (unfold getattr; rewrite Hnew; reflexivity).
    apply holds_eq_self.
Qed.

Lemma holds_key_crit_self (values_dict : dict) (c : crit) :
  key_crit values_dict c → holds c values_dict = true.
Proof. intros [n ->]. apply (holds_eq_self n values_dict). Qed.

Lemma passes_Forall (cs : list crit) (r : instance) :
  passes cs r = true ↔ Forall (λ c, holds c r = true) cs.
Proof.
  unfold passes. rewrite forallb_forall, Forall_forall.
  split; intros H c Hc; apply H; apply list_elem_of_In; exact Hc.
Qed.

Lemma filter_replace {A} (P : A → Prop) `{∀ x, Decision (P x)} `{EqDecision A}
    (l : list A) (x y : A) :
  filter P l = [x] → P y →
  ∃ i, list_find (λ r, r = x) l = Some (i, x) ∧ filter P (<[i := y]> l) = [y].
Proof.
  intros Hf Hy. induction l as [|a l IH]; [discriminate|].
  destruct (decide (P a)) as [Ha|Ha].
  - rewrite filter_cons_True in Hf by exact Ha. injection Hf as -> Hnil.
    exists 0%nat. split.
    + cbn. rewrite decide_True by reflexivity. reflexivity.
    + change (<[0%nat := y]> (x :: l)) with (y :: l).
      rewrite filter_cons_True by exact Hy. rewrite Hnil. reflexivity.
  - rewrite filter_cons_False in Hf by exact Ha.
    destruct (IH Hf) as (i & Hfind & Hfilter).
    assert (a ≠ x) as Hne.
    { intros ->. apply Ha.
      assert (x ∈ filter P l) as Hin by (rewrite Hf; apply list_elem_of_here).
      apply list_elem_of_filter in Hin. tauto. }
    exists (S i). split.
    + cbn. rewrite decide_False by exact Hne. rewrite Hfind. reflexivity.
    + change (<[S i := y]> (a :: l)) with (a :: <[i := y]> l).
      rewrite filter_cons_False by exact Ha. exact Hfilter.
Qed.

Lemma replace_instance_same (rs : list instance) (r : instance) :
  replace_instance rs r r = rs.
Proof.
  unfold replace_instance.
  destruct (list_find (λ x, x = r) rs) as [[i x]|] eqn:Hfind; [|reflexivity].
  apply list_find_Some in Hfind as (Hi & -> & _). apply list_insert_id. exact Hi.
Qed.

Lemma s_create_or_update_found_twice (cls : DBObject) (session : Session)
    (values_dict : dict) (ignore_none ignore_zero : option bool) (r : instance) :
  s_find_one cls session values_dict = Ok (Some r) →
  ∃ session', s_create_or_update cls session values_dict ignore_none ignore_zero
              = Ok session'
              ∧ s_create_or_update cls session' values_dict ignore_none ignore_zero
                = Ok session'
              ∧ length (rows session') = length (rows session)
              ∧ added session' = added session.
Proof.
  intros Hfind. unfold s_create_or_update at 1. rewrite Hfind.
  cbn [mbind result_bind]. eexists. split; [reflexivity|].
  set (r' := update_from_dict cls r values_dict _ _).
  rewrite s_find_one_by_crits in Hfind.
  destruct (find_one_crits cls values_dict) as [cs|e] eqn:Hcs; [|discriminate].
  cbn [mbind result_bind] in Hfind.
  assert (filter (λ r, passes cs r = true) (rows session) = [r]) as Hone.
  { destruct (filter _ (rows session)) as [|x [|x' l]]; simpl in Hfind;
      congruence. }
  assert (passes cs r' = true) as Hr'.
  { assert (passes cs r = true) as Hr.
    { assert (r ∈ filter (λ r, passes cs r = true) (rows session)) as Hin
        by (rewrite Hone; apply list_elem_of_here).
      apply list_elem_of_filter in Hin. tauto. }
    apply passes_Forall. apply passes_Forall in Hr.
    destruct (find_one_crits_form _ _ _ Hcs) as [Hform _].
    rewrite Forall_forall in *. intros c Hc.
    apply holds_key_crit_update; [apply Hform|apply Hr]; exact Hc. }
  destruct (filter_replace (λ r, passes cs r = true) (rows session) r r' Hone Hr')
    as (i & Hi & Hfilter).
  unfold replace_instance. rewrite Hi.
  split; [|split; [apply length_insert|reflexivity]].
  unfold s_create_or_update. rewrite s_find_one_by_crits, Hcs.
  cbn [mbind result_bind rows]. rewrite Hfilter.
  cbn [one_of added mbind result_bind rows].
  replace (update_from_dict cls r' values_dict (default false ignore_none)
             (default false ignore_zero)) with r'
    by (symmetry; apply update_from_dict_twice).
  rewrite replace_instance_same. reflexivity.
Qed.

(** X20: [s_create_or_update] on a record that [s_find_one] finds: the session
    it leaves is a fixed point, a second call with the same dictionary
    finds the updated record and changes nothing; no row is added or
    removed and nothing is staged. *)
Theorem s_create_or_update_idempotent (cls : DBObject) (session : Session)
    (values_dict : dict) (ignore_none ignore_zero : option bool) (r : instance) :
  s_find_one cls session values_dict = Ok (Some r) →
  ∃ session', s_create_or_update cls session values_dict ignore_none ignore_zero
              = Ok session'
              ∧ s_create_or_update cls session' values_dict ignore_none ignore_zero
                = Ok session'
              ∧ length (rows session') = length (rows session)
              ∧ added session' = added session.
Proof. apply s_create_or_update_found_twice. Qed.

Lemma s_create_or_update_idempotent_witness :
  ∃ session',
    s_create_or_update match_cls match_session
      (<["a" := VInt 1]> (<["id" := VInt 9]> {[ "ts" := VDateTime (march 1 8) ]}))
      None None = Ok session'
    ∧ s_create_or_update match_cls session'
        (<["a" := VInt 1]> (<["id" := VInt 9]> {[ "ts" := VDateTime (march 1 8) ]}))
        None None = Ok session'.
Proof.
  destruct (s_create_or_update_idempotent match_cls match_session
              (<["a" := VInt 1]> (<["id" := VInt 9]> {[ "ts" := VDateTime (march 1 8) ]}))
              None None match_row_null) as (s' & H1 & H2 & _).
  - vm_compute. reflexivity.
  - exists s'. split; assumption.
Defined.

Lemma one_of_None (l : list instance) : one_of l = Ok None → l = [].
Proof. destruct l as [|x [|y l]]; simpl; congruence. Qed.

(** Once the record built from [values_dict] is stored, [s_find_one] finds
    it. *)
Lemma s_find_one_after_commit (cls : DBObject) (db : list instance)
    (values_dict : dict) :
  match_cols_are_columns cls →
  s_find_one cls {| rows := db; added := [] |} values_dict = Ok None →
  s_find_one cls {| rows := db ++ [values_dict]; added := [] |} values_dict
  = Ok (Some values_dict).
Proof.
  intros Hcols. rewrite !s_find_one_by_crits.
  destruct (find_one_crits cls values_dict) as [cs|e] eqn:Hcs; [|discriminate].
  cbn [mbind result_bind rows]. intros Hnone. apply one_of_None in Hnone.
  rewrite filter_app, Hnone. rewrite filter_cons_True, filter_nil; [reflexivity|].
  apply passes_Forall. destruct (find_one_crits_form _ _ _ Hcs) as [_ Hform].
  eapply Forall_impl; [exact (Hform Hcols)|]. apply holds_key_crit_self.
Qed.

Lemma update_from_dict_self (cls : DBObject) (values_dict : dict)
    (ignore_none ignore_zero : bool) :
  update_from_dict cls values_dict values_dict ignore_none ignore_zero = values_dict.
Proof.
  apply map_eq. intros k. rewrite update_from_dict_lookup.
  destruct (values_dict !! k) as [v|]; [|reflexivity].
  destruct (merges cls ignore_none ignore_zero k v); reflexivity.
Qed.

Lemma construct_Ok (cls : DBObject) (values_dict : dict) (new : instance) :
  construct cls values_dict = Ok new → new = values_dict.
Proof. unfold construct. destruct (bool_decide _); congruence. Qed.

(** X21: [find_or_create], called twice with the same dictionary, stores at most
    one new record: the second call finds what the first one stored and
    leaves the store as it is.  The declared match keys are columns. *)
Theorem find_or_create_twice (cls : DBObject) (db db' : list instance)
    (values_dict : dict) :
  match_cols_are_columns cls →
  find_or_create cls db values_dict = Ok ((), db') →
  find_or_create cls db' values_dict = Ok ((), db')
  ∧ (db' = db ∨ db' = db ++ [values_dict]).
Proof.
  intros Hcols. unfold find_or_create, managed_session, s_find_or_create.
  destruct (s_find_one cls {| rows := db; added := [] |} values_dict)
    as [[r|]|e] eqn:Hfind; cbn [mbind result_bind]; [| |discriminate].
  - cbn [rows added]. rewrite app_nil_r. intros [= <-].
    rewrite Hfind. cbn [mbind result_bind rows added]. rewrite app_nil_r. auto.
  - destruct (construct cls values_dict) as [new|e] eqn:Hnew; [|discriminate].
    apply construct_Ok in Hnew as ->. cbn [mbind result_bind session_add rows added].
    rewrite app_nil_l. intros [= <-].
    rewrite (s_find_one_after_commit cls db values_dict Hcols Hfind).
    cbn [mbind result_bind rows added]. rewrite app_nil_r. auto.
Qed.

Lemma find_or_create_twice_witness :
  find_or_create match_cls (rows match_session)
    (<["a" := VInt 7]> {[ "ts" := VDateTime (march 1 8) ]})
  = Ok ((), rows match_session ++ [<["a" := VInt 7]> {[ "ts" := VDateTime (march 1 8) ]}])
  ∧ find_or_create match_cls
      (rows match_session ++ [<["a" := VInt 7]> {[ "ts" := VDateTime (march 1 8) ]}])
      (<["a" := VInt 7]> {[ "ts" := VDateTime (march 1 8) ]})
    = Ok ((), rows match_session
              ++ [<["a" := VInt 7]> {[ "ts" := VDateTime (march 1 8) ]}]).
Proof.
  assert (find_or_create match_cls (rows match_session)
            (<["a" := VInt 7]> {[ "ts" := VDateTime (march 1 8) ]})
          = Ok ((), rows match_session
                    ++ [<["a" := VInt 7]> {[ "ts" := VDateTime (march 1 8) ]}]))
    as Hfirst by (vm_compute; reflexivity).
  split; [exact Hfirst|].
  apply (find_or_create_twice match_cls (rows match_session) _ _).
  - intros names Hn n Hin. vm_compute in Hn. injection Hn as <-.
    clear Hfirst.
    assert (get_col_names match_cls = ["id"; "ts"; "a"; "b"]) as -> by reflexivity.
    apply list_elem_of_In. apply list_elem_of_In in Hin. simpl in *.
    destruct Hin as [<-|[<-|[]]]; auto 6.
  - exact Hfirst.
Defined.

(** X22: [create_or_update], called twice with the same dictionary, leaves the
    store that the first call left: the record it updated or stored is
    found again and merging the same values changes nothing.  The store
    grows by at most the one record built from the dictionary. *)
Theorem create_or_update_twice (cls : DBObject) (db db' : list instance)
    (values_dict : dict) (ignore_none : option bool) :
  match_cols_are_columns cls →
  create_or_update cls db values_dict ignore_none = Ok ((), db') →
  create_or_update cls db' values_dict ignore_none = Ok ((), db')
  ∧ (length db' = length db ∨ db' = db ++ [values_dict]).
Proof.
  intros Hcols. unfold create_or_update, managed_session.
  set (flag := Some (default false ignore_none)).
  destruct (s_find_one cls {| rows := db; added := [] |} values_dict)
    as [[r|]|e] eqn:Hfind.
  - destruct (s_create_or_update_found_twice cls _ values_dict flag None r Hfind)
      as (s' & H1 & H2 & Hlen & Hadded).
    rewrite H1. cbn [mbind result_bind]. cbn [added rows] in Hadded, Hlen.
    rewrite Hadded, app_nil_r. intros [= <-].
    replace {| rows := rows s'; added := [] |} with s'
      by (destruct s'; simpl in *; congruence).
    rewrite H2. cbn [mbind result_bind]. rewrite Hadded, app_nil_r. auto.
  - unfold s_create_or_update at 1. rewrite Hfind. cbn [mbind result_bind].
    destruct (construct cls values_dict) as [new|e] eqn:Hnew; [|discriminate].
    apply construct_Ok in Hnew as ->. cbn [mbind result_bind session_add rows added].
    rewrite app_nil_l. intros [= <-].
    unfold s_create_or_update.
    rewrite (s_find_one_after_commit cls db values_dict Hcols Hfind).
    cbn [mbind result_bind rows added].
    rewrite update_from_dict_self, replace_instance_same, app_nil_r. auto.
  - unfold s_create_or_update. rewrite Hfind. discriminate.
Qed.

Lemma create_or_update_twice_witness :
  create_or_update match_cls
    [ <["id" := VInt 1]> (<["ts" := VDateTime (march 1 8)]>
        (<["a" := VInt 1]> (<["b" := VNone]> ∅))) ]
    (<["a" := VInt 1]> (<["id" := VInt 9]> {[ "ts" := VDateTime (march 1 8) ]}))
    None
  = Ok ((), [ <["id" := VInt 9]> (<["ts" := VDateTime (march 1 8)]>
                (<["a" := VInt 1]> (<["b" := VNone]> ∅))) ])
  ∧ create_or_update match_cls
      [ <["id" := VInt 9]> (<["ts" := VDateTime (march 1 8)]>
          (<["a" := VInt 1]> (<["b" := VNone]> ∅))) ]
      (<["a" := VInt 1]> (<["id" := VInt 9]> {[ "ts" := VDateTime (march 1 8) ]}))
      None
    = Ok ((), [ <["id" := VInt 9]> (<["ts" := VDateTime (march 1 8)]>
                  (<["a" := VInt 1]> (<["b" := VNone]> ∅))) ]).
Proof.
  assert (create_or_update match_cls
            [ <["id" := VInt 1]> (<["ts" := VDateTime (march 1 8)]>
                (<["a" := VInt 1]> (<["b" := VNone]> ∅))) ]
            (<["a" := VInt 1]> (<["id" := VInt 9]> {[ "ts" := VDateTime (march 1 8) ]}))
            None
          = Ok ((), [ <["id" := VInt 9]> (<["ts" := VDateTime (march 1 8)]>
                        (<["a" := VInt 1]> (<["b" := VNone]> ∅))) ]))
    as Hfirst by (vm_compute; reflexivity).
  split; [exact Hfirst|].
  refine (proj1 (create_or_update_twice match_cls _ _ _ None _ Hfirst)).
  intros names Hn n Hin. vm_compute in Hn. injection Hn as <-.
  clear Hfirst.
  assert (get_col_names match_cls = ["id"; "ts"; "a"; "b"]) as -> by reflexivity.
  apply list_elem_of_In. apply list_elem_of_In in Hin. simpl in *.
  destruct Hin as [<-|[<-|[]]]; auto 6.
Defined.

(** ** [s_insert_or_update], applied twice *)

(** X23: [s_insert_or_update] on a record that the lookup by identity finds: a
    second call with the same dictionary finds the same record and changes
    nothing; no row is added or removed and nothing is staged.  The table
    has one primary-key column, and it is the identity column. *)
Theorem s_insert_or_update_idempotent (cls : DBObject) (session : Session)
    (values_dict : dict) (ignore_none ignore_zero : option bool)
    (pk : Column) (i : nat) (self : instance) :
  filter (λ col, primary_key col = true) (columns cls) = [pk] →
  get_col_name cls = Some (name pk) →
  s_get_from_dict cls session values_dict = Ok (Some (i, self)) →
  ∃ session', s_insert_or_update cls session values_dict ignore_none ignore_zero
              = Ok session'
              ∧ s_insert_or_update cls session' values_dict ignore_none ignore_zero
                = Ok session'
              ∧ length (rows session') = length (rows session)
              ∧ added session' = added session.
Proof.
  intros Hpk Hget Hfound. unfold s_insert_or_update at 1. rewrite Hfound.
  cbn [mbind result_bind]. eexists. split; [reflexivity|].
  set (r' := update_from_dict cls self values_dict _ _).
  split; [|split; [apply length_insert|reflexivity]].
  unfold s_get_from_dict, dict_get in Hfound. rewrite Hget in Hfound.
  destruct (values_dict !! name pk) as [id|] eqn:Hid; [|discriminate].
  cbn [mbind result_bind] in Hfound. unfold s_get in Hfound. rewrite Hpk in Hfound.
  destruct (is_none id) eqn:Hnone; [discriminate|].
  injection Hfound as Hfind.
  apply list_find_Some in Hfind as (Hi & Hself & Hbefore).
  assert (list_find (λ r, holds (Cmp OpEq (Col (name pk)) id) r = true)
            (<[i := r']> (rows session)) = Some (i, r')) as Hfind'.
  { apply list_find_Some. split; [|split].
    - apply list_lookup_insert_eq. eapply lookup_lt_Some. exact Hi.
    - apply holds_key_crit_update; [|exact Hself].
      left. exists (name pk). rewrite Hid. reflexivity.
    - intros j y Hj Hlt. rewrite list_lookup_insert_ne in Hj by lia.
      exact (Hbefore j y Hj Hlt). }
  unfold s_insert_or_update, s_get_from_dict, dict_get. rewrite Hget, Hid.
  cbn [mbind result_bind]. unfold s_get. rewrite Hpk, Hnone. cbn [rows].
  rewrite Hfind'. cbn [mbind result_bind rows added].
  replace (update_from_dict cls r' values_dict (default true ignore_none)
             (default false ignore_zero)) with r'
    by (symmetry; apply update_from_dict_twice).
  rewrite list_insert_insert_eq. reflexivity.
Qed.

Lemma s_insert_or_update_idempotent_witness :
  s_insert_or_update upsert_cls
    {| rows := [upsert_row (VInt 5) (VInt 7)]; added := [] |}
    (upsert_row VNone (VInt 9)) None None
  = Ok {| rows := [upsert_row (VInt 5) (VInt 9)]; added := [] |}
  ∧ s_insert_or_update upsert_cls
      {| rows := [upsert_row (VInt 5) (VInt 9)]; added := [] |}
      (upsert_row VNone (VInt 9)) None None
    = Ok {| rows := [upsert_row (VInt 5) (VInt 9)]; added := [] |}.
Proof.
  destruct (s_insert_or_update_idempotent upsert_cls
              {| rows := [upsert_row (VInt 5) (VInt 7)]; added := [] |}
              (upsert_row VNone (VInt 9)) None None
              {| name := "id"; type := Integer; primary_key := true |}
              0%nat (upsert_row (VInt 5) (VInt 7)))
    as (s' & H1 & H2 & _).
  - reflexivity.
  - reflexivity.
  - vm_compute. reflexivity.
  - assert (s' = {| rows := [upsert_row (VInt 5) (VInt 9)]; added := [] |}) as ->.
    { vm_compute in H1. injection H1 as <-. vm_compute. reflexivity. }
    split; [vm_compute; reflexivity|exact H2].
Defined.

(** ** The instance side of [after] and [before] *)

(** X24: A time splits the instances in two: for a given time, an instance is
    before it exactly when it is not at or after it; where one of the two
    raises, so does the other. *)
Theorem after_before_partition (cls : DBObject) (self : instance) (ts : value) :
  ts ≠ VNone →
  after_instance cls self ts
  = (b ← before_instance cls self ts; Ok (Some (negb b))).
Proof.
  intros Hts. unfold after_instance, before_instance.
  replace (is_none ts) with false by (destruct ts; simpl; congruence).
  destruct (time_col_attr (time_col_name cls)) as [tc|e]; [|reflexivity].
  cbn [mbind result_bind].
  destruct (py_compare (getattr self tc) ts) as [[]|e]; reflexivity.
Qed.

Lemma after_before_partition_witness :
  after_instance sample_cls (sample_row (march 1 12) 2 1) (VDateTime (march 1 12))
  = Ok (Some true)
  ∧ before_instance sample_cls (sample_row (march 1 12) 2 1) (VDateTime (march 1 12))
    = Ok false.
Proof.
  split.
  - rewrite after_before_partition by discriminate. vm_compute. reflexivity.
  - vm_compute. reflexivity.
Defined.
